(** * The YCSB report generator, [.github/scripts/generate_report.py]

    A shallow embedding of the script: the line-oriented parser
    [parse_ycsb_output], the histogram expansion [get_latency_values], the
    plot and Markdown renderers and the driver loop, followed by the
    properties of the parsing and aggregation contract.

    Text is a [string] of characters whose code points are below 256.
    Python exceptions are values of [exn]; a computation that may raise
    returns [exn + A], and the [try]/[except] blocks of the script are
    matches on that sum. The progress lines that the script prints on the
    standard output have no part in what follows and are left out. *)

From Stdlib Require Import ZArith Ascii String List Bool Lia Permutation Sorted.
From Stdlib Require Import Floats.SpecFloat.
From stdpp Require Import gmap strings list fin_maps.

Local Open Scope Z_scope.

(** ** Python's built-in text operations *)

Module Py.

(** The exceptions that the script can meet. All of them derive from
    [Exception]; [FileNotFoundError] is the one it tells apart. *)
Inductive exn : Type :=
  | FileNotFoundError
  | OSError
  | UnicodeDecodeError
  | ValueError
  | KeyError (key : string)
  | AttributeError
  | TypeError
  | OverflowError
  | MemoryError.

(** Code point of a character. *)
Definition ord (c : ascii) : Z := Z.of_N (N_of_ascii c).

(** [str.isspace] on one character, as used by [str.strip]. *)
Definition isspace (c : ascii) : bool :=
  let n := ord c in
  ((9 <=? n) && (n <=? 13)) || ((28 <=? n) && (n <=? 32))
  || (n =? 133) || (n =? 160).

(** The C-level whitespace test that [int] and [float] apply to their
    argument: the six ASCII blanks, and the two Latin-1 blanks that the
    conversion to ASCII turns into a space beforehand. *)
Definition isspace_num (c : ascii) : bool :=
  let n := ord c in
  ((9 <=? n) && (n <=? 13)) || (n =? 32) || (n =? 133) || (n =? 160).

(** ['0'..'9']. *)
Definition isdecimal (c : ascii) : bool :=
  let n := ord c in (48 <=? n) && (n <=? 57).

(** [str.isdigit] on one character: the decimal digits and the
    superscripts one, two and three. *)
Definition isdigit (c : ascii) : bool :=
  let n := ord c in
  isdecimal c || (n =? 178) || (n =? 179) || (n =? 185).

Definition digit_val (c : ascii) : Z := ord c - 48.

Fixpoint lstrip (sp : ascii -> bool) (s : string) : string :=
  match s with
  | EmptyString => EmptyString
  | String c s' => if sp c then lstrip sp s' else s
  end.

(** Removes the blanks at the end: a character is kept when it is not a
    blank or something is kept after it. *)
Fixpoint rstrip (sp : ascii -> bool) (s : string) : string :=
  match s with
  | EmptyString => EmptyString
  | String c s' =>
      match rstrip sp s' with
      | EmptyString => if sp c then EmptyString else String c EmptyString
      | r => String c r
      end
  end.

(** [s.strip()] *)
Definition strip (s : string) : string := rstrip isspace (lstrip isspace s).

(** [s.startswith(p)] *)
Definition startswith (s p : string) : bool := String.prefix p s.

(** [c in s] for a one-character [c]. *)
Fixpoint contains (c : ascii) (s : string) : bool :=
  match s with
  | EmptyString => false
  | String d s' => Ascii.eqb c d || contains c s'
  end.

(** The scan of [s.split(sep)] for a non-empty [sep]: the part that ends
    at the next occurrence of [sep] (or at the end of [s]) and the parts
    after it. [skip] counts the characters of a separator just matched
    that are still to be passed over. *)
Fixpoint split_go (sep : string) (skip : nat) (s : string) : string * list string :=
  match s with
  | EmptyString => (EmptyString, [])
  | String c s' =>
      match skip with
      | S k => split_go sep k s'
      | O =>
          if String.prefix sep s
          then (EmptyString,
                let '(p, ps) := split_go sep (Nat.pred (String.length sep)) s' in p :: ps)
          else let '(p, ps) := split_go sep O s' in (String c p, ps)
      end
  end.

(** [s.split(sep)], [sep] not empty: never the empty list. *)
Definition split (sep s : string) : list string :=
  let '(p, ps) := split_go sep O s in p :: ps.

(** [s[1:-1]] *)
Definition slice_1_m1 (s : string) : string :=
  String.substring 1 (String.length s - 2) s.

(** [s.ljust(w)], which is what the format specification [<w] does to a
    string. *)
Definition ljust (w : nat) (s : string) : string :=
  String.append s (String.string_of_list_ascii (repeat " "%char (w - String.length s)%nat)).

(** *** [int(s)] *)

(** Splits off the longest prefix of characters satisfying [p]. *)
Fixpoint span (p : ascii -> bool) (s : string) : string * string :=
  match s with
  | EmptyString => (EmptyString, EmptyString)
  | String c s' =>
      if p c then let '(a, b) := span p s' in (String c a, b)
      else (EmptyString, s)
  end.

(** Value of a string of decimal digits, most significant first. *)
Fixpoint digits_val (acc : Z) (s : string) : Z :=
  match s with
  | EmptyString => acc
  | String c s' => digits_val (10 * acc + digit_val c) s'
  end.

(** Reads digits that may be separated by single underscores, as the
    integer scanner does: returns the digits read, without the
    underscores, and the rest of the text; [None] when an underscore is
    doubled or ends the run. [prev_us] tells that the previous character
    was an underscore. *)
Fixpoint scan_int_digits (prev_us : bool) (s : string) : option (string * string) :=
  match s with
  | EmptyString => if prev_us then None else Some (EmptyString, EmptyString)
  | String c s' =>
      if isdecimal c then
        match scan_int_digits false s' with
        | Some (ds, r) => Some (String c ds, r)
        | None => None
        end
      else if Ascii.eqb c "_" then
        if prev_us then None else scan_int_digits true s'
      else if prev_us then None else Some (EmptyString, s)
  end.

(** The limit on the number of digits of an integer literal
    ([sys.int_info.default_max_str_digits]). *)
Definition max_str_digits : nat := 4300.

Definition split_sign (s : string) : bool * string :=
  match s with
  | String "-" s' => (true, s')
  | String "+" s' => (false, s')
  | _ => (false, s)
  end.

(** [int(s)] for a string [s], in base ten. *)
Definition int (s : string) : exn + Z :=
  let '(neg, body) := split_sign (lstrip isspace_num s) in
  match body with
  | String "_" _ => inl ValueError
  | _ =>
      match scan_int_digits false body with
      | None => inl ValueError
      | Some (ds, rest) =>
          if (String.length ds =? 0)%nat then inl ValueError
          else if (max_str_digits <? String.length ds)%nat then inl ValueError
          else
            match lstrip isspace_num rest with
            | EmptyString => inr (if neg then - digits_val 0 ds else digits_val 0 ds)
            | _ => inl ValueError
            end
      end
  end.

(** *** [float(s)] *)

(** A Python float is an IEEE 754 binary64 number. *)
Definition prec : Z := 53.
Definition emax : Z := 1024.

(** The binary64 number nearest to [(-1)^neg * mant * 10^k], ties to
    even; overflow gives an infinity and underflow a signed zero. The
    quotient is taken at the exponent of the smallest subnormal, with the
    position of the remainder for the rounding. *)
Definition round_decimal (neg : bool) (mant k : Z) : spec_float :=
  if mant =? 0 then S754_zero neg
  else
    let n := (if 0 <=? k then mant * 10 ^ k else mant) * 2 ^ 1074 in
    let d := if 0 <=? k then 1 else 10 ^ (- k) in
    let q := n / d in
    let r := n mod d in
    let loc := if r =? 0 then loc_Exact else loc_Inexact (2 * r ?= d) in
    binary_round_aux prec emax neg q (-1074) loc.

Definition tolower (c : ascii) : ascii :=
  let n := ord c in
  if (65 <=? n) && (n <=? 90) then ascii_of_N (Z.to_N (n + 32)) else c.

Fixpoint lower (s : string) : string :=
  match s with
  | EmptyString => EmptyString
  | String c s' => String (tolower c) (lower s')
  end.

(** Checks the underscores of a float literal and removes them: each one
    stands between two decimal digits. [prev] is the previous character. *)
Fixpoint strip_underscores (prev : option ascii) (s : string) : option string :=
  let prev_digit := match prev with Some p => isdecimal p | None => false end in
  let prev_us := match prev with Some p => Ascii.eqb p "_" | None => false end in
  match s with
  | EmptyString => if prev_us then None else Some EmptyString
  | String c s' =>
      if Ascii.eqb c "_" then
        if prev_digit then strip_underscores (Some c) s' else None
      else if prev_us && negb (isdecimal c) then None
      else
        match strip_underscores (Some c) s' with
        | Some r => Some (String c r)
        | None => None
        end
  end.

(** The exponent part of a decimal literal: [e] or [E], a sign, digits.
    When no digit follows, nothing is read. *)
Definition scan_exponent (s : string) : Z * string :=
  match s with
  | String c r =>
      if Ascii.eqb (tolower c) "e" then
        let '(neg, r') := split_sign r in
        let '(ds, r'') := span isdecimal r' in
        match ds with
        | EmptyString => (0, s)
        | _ => ((if neg then - digits_val 0 ds else digits_val 0 ds), r'')
        end
      else (0, s)
  | EmptyString => (0, s)
  end.

(** A signed decimal literal: digits, a point, digits, an exponent; at
    least one digit before the exponent, and nothing after the literal. *)
Definition float_decimal (neg : bool) (body : string) : option spec_float :=
  let '(ip, r1) := span isdecimal body in
  let '(fp, r2) :=
    match r1 with
    | String "." r => span isdecimal r
    | _ => (EmptyString, r1)
    end in
  if (String.length ip + String.length fp =? 0)%nat then None
  else
    let '(ex, r3) := scan_exponent r2 in
    match r3 with
    | EmptyString =>
        Some (round_decimal neg (digits_val 0 (String.append ip fp))
                (ex - Z.of_nat (String.length fp)))
    | _ => None
    end.

(** [float(s)] for a string [s]. *)
Definition float (s : string) : exn + spec_float :=
  match strip_underscores None s with
  | None => inl ValueError
  | Some s1 =>
      let '(neg, body) := split_sign (rstrip isspace_num (lstrip isspace_num s1)) in
      match float_decimal neg body with
      | Some x => inr x
      | None =>
          let w := lower body in
          if String.eqb w "inf" || String.eqb w "infinity" then inr (S754_infinity neg)
          else if String.eqb w "nan" then inr S754_nan
          else inl ValueError
      end
  end.

(** Truth value of a float: false for the two zeros only. *)
Definition float_bool (x : spec_float) : bool :=
  match x with
  | S754_zero _ => false
  | _ => true
  end.

End Py.

Import Py.

(** ** Computations that may raise *)

Definition bind {A B : Type} (c : exn + A) (k : A -> exn + B) : exn + B :=
  match c with
  | inl e => inl e
  | inr a => k a
  end.

Notation "x <- c ;; k" := (bind c (fun x => k))
  (at level 100, c at next level, right associativity).

(** ** The metrics record *)

(** What a slot of a section holds: [None], a float, or the list of
    (latency, count) pairs. *)
Inductive value : Type :=
  | VNone
  | VFloat (x : spec_float)
  | VList (l : list (Z * Z)).

(** Python's truth value of a slot. *)
Definition truthy (v : value) : bool :=
  match v with
  | VNone => false
  | VFloat x => float_bool x
  | VList l => negb (Nat.eqb (length l) 0)
  end.

(** A section is a dict from labels to slots, [gmap string value], and
    the metrics record a dict from section names to sections. *)

Definition op_section : gmap string value :=
  <["Operations" := VNone]> (
  <["AverageLatency(us)" := VNone]> (
  <["MinLatency(us)" := VNone]> (
  <["MaxLatency(us)" := VNone]> (
  <["95thPercentileLatency(us)" := VNone]> (
  <["99thPercentileLatency(us)" := VNone]> (
  <["Return=OK" := VNone]> (
  <["LatencyDistribution" := VList []]> ∅))))))).

Definition initial_metrics : gmap string (gmap string value) :=
  <["OVERALL" := <["RunTime(ms)" := VNone]> (<["Throughput(ops/sec)" := VNone]> ∅)]> (
  <["UPDATE" := op_section]> (
  <["READ" := op_section]> ∅)).

(** [d[k]] *)
Definition getitem {V : Type} (d : gmap string V) (k : string) : exn + V :=
  match d !! k with
  | Some v => inr v
  | None => inl (KeyError k)
  end.

(** [m[sec][key] = v]: the section is looked up, then updated in place. *)
Definition setitem2 (m : gmap string (gmap string value)) (sec key : string) (v : value)
  : exn + gmap string (gmap string value) :=
  d <- getitem m sec ;;
  inr (<[sec := <[key := v]> d]> m).

(** [m[sec]['LatencyDistribution'].append(p)]: only a list has [append]. *)
Definition append_distribution (m : gmap string (gmap string value)) (sec : string)
    (p : Z * Z) : exn + gmap string (gmap string value) :=
  d <- getitem m sec ;;
  v <- getitem d "LatencyDistribution" ;;
  match v with
  | VList l => inr (<[sec := <["LatencyDistribution" := VList (l ++ [p])]> d]> m)
  | _ => inl AttributeError
  end.

(** ** The parser *)

(** The parser's variables while it reads a file. ([latency_data] is
    never used by the script and is left out.) *)
Record pstate : Type := PState {
  st_metrics : gmap string (gmap string value);
  current_section : option string
}.

Definition initial_state : pstate := PState initial_metrics None.

(** [parts[i]] where the script has checked the length beforehand. *)
Definition part (i : nat) (parts : list string) : string := nth i parts EmptyString.

(** [latency_value, count = map(int, parts)] *)
Definition unpack_int_pair (parts : list string) : exn + Z * Z :=
  match parts with
  | [a; b] => x <- int a ;; y <- int b ;; inr (x, y)
  | _ => inl ValueError
  end.

(** The test of line 34 on the stripped line, without its
    [current_section] conjunct: the shape of a histogram row. *)
Definition histogram_shaped (line : string) : bool :=
  startswith line "0," || startswith line ">1000"
  || match line with
     | String c _ => isdigit c && contains "," line
     | EmptyString => false
     end.

Definition str_truthy (s : option string) : bool :=
  match s with
  | Some (String _ _) => true
  | _ => false
  end.

Definition is_op_section (s : option string) : bool :=
  match s with
  | Some n => String.eqb n "UPDATE" || String.eqb n "READ"
  | None => false
  end.

(** The body of the [for] loop for one line of the file. *)
Definition process_line (st : pstate) (raw : string) : exn + pstate :=
  let line := strip raw in
  let m := st_metrics st in
  if startswith line "[OVERALL]" then
    let parts := split ", " line in
    if (length parts =? 3)%nat then
      x <- float (part 1 parts) ;;
      m1 <- setitem2 m "OVERALL" "RunTime(ms)" (VFloat x) ;;
      y <- float (part 2 parts) ;;
      m2 <- setitem2 m1 "OVERALL" "Throughput(ops/sec)" (VFloat y) ;;
      inr (PState m2 (current_section st))
    else inr st
  else if startswith line "[UPDATE]" || startswith line "[READ]" then
    let cs := slice_1_m1 (part 0 (split ", " line)) in
    let parts := split ", " line in
    if (3 <=? length parts)%nat then
      x <- float (part 2 parts) ;;
      m1 <- setitem2 m cs (part 1 parts) (VFloat x) ;;
      inr (PState m1 (Some cs))
    else inr (PState m (Some cs))
  else if str_truthy (current_section st) && histogram_shaped line then
    if is_op_section (current_section st) then
      let cs := default EmptyString (current_section st) in
      match (p <- unpack_int_pair (split "," line) ;; append_distribution m cs p) with
      | inr m1 => inr (PState m1 (current_section st))
      | inl ValueError => inr st
      | inl e => inl e
      end
    else inr st
  else inr st.

(** The [for] loop over the lines read so far. *)
Fixpoint process_lines (st : pstate) (ls : list string) : exn + pstate :=
  match ls with
  | [] => inr st
  | l :: ls' => st' <- process_line st l ;; process_lines st' ls'
  end.

(** What opening a path for reading gives: the lines that iterating over
    the file yields, and the exception, if any, that a later read raises
    (a decoding or an input error). *)
Record opened : Type := Opened {
  file_lines : list string;
  read_error : option exn
}.

(** The files of the working directory: [open(path, 'r')] raises or gives
    a file. A missing file raises [FileNotFoundError]. *)
Definition filesystem : Type := string -> exn + opened.

(** What the script prints on the standard error. *)
Inductive diagnostic : Type :=
  | Warning_file_not_found (filepath : string)
  | Warning_error_parsing (filepath : string) (e : exn)
  | No_update_latency_data.

(** The [try] block of the parser. *)
Definition parse_body (fs : filesystem) (filepath : string) : exn + pstate :=
  f <- fs filepath ;;
  st <- process_lines initial_state (file_lines f) ;;
  match read_error f with
  | Some e => inl e
  | None => inr st
  end.

(** [parse_ycsb_output(filepath)]: the record or [None], and what was
    printed on the standard error. *)
Definition parse_ycsb_output (fs : filesystem) (filepath : string)
  : option (gmap string (gmap string value)) * list diagnostic :=
  match parse_body fs filepath with
  | inr st => (Some (st_metrics st), [])
  | inl FileNotFoundError => (None, [Warning_file_not_found filepath])
  | inl e => (None, [Warning_error_parsing filepath e])
  end.

(** ** Expansion of a latency distribution *)

(** Building a list takes memory. [can_hold n] tells whether the
    interpreter finds the memory for a list of [n] items; the answer
    depends on the machine and is a parameter of the expansion and of
    what calls it. *)

(** The largest index, [sys.maxsize]. *)
Definition ssize_max : Z := 2 ^ 63 - 1.

(** [[x] * count]: a count that does not fit an index raises
    [OverflowError]; a negative count gives the empty list; otherwise the
    list of [count] items is built if memory allows. *)
Definition list_repeat (can_hold : Z -> bool) (x count : Z) : exn + list Z :=
  if (count <? - ssize_max - 1) || (ssize_max <? count) then inl OverflowError
  else if count <=? 0 then inr []
  else if can_hold count then inr (repeat x (Z.to_nat count))
  else inl MemoryError.

(** [l.extend(new)]: nothing is done for an empty [new]; otherwise [l]
    grows to hold the items of both if memory allows. *)
Definition list_extend (can_hold : Z -> bool) (l new : list Z) : exn + list Z :=
  match new with
  | [] => inr l
  | _ =>
      if can_hold (Z.of_nat (length l + length new)) then inr (l ++ new)
      else inl MemoryError
  end.

(** The loop of lines 53 and 54 on [latencies]. *)
Fixpoint expand_loop (can_hold : Z -> bool) (latencies : list Z)
    (latency_distribution : list (Z * Z)) : exn + list Z :=
  match latency_distribution with
  | [] => inr latencies
  | (latency, count) :: rest =>
      new <- list_repeat can_hold latency count ;;
      latencies' <- list_extend can_hold latencies new ;;
      expand_loop can_hold latencies' rest
  end.

(** [get_latency_values(latency_distribution)] *)
Definition get_latency_values (can_hold : Z -> bool)
    (latency_distribution : list (Z * Z)) : exn + list Z :=
  expand_loop can_hold [] latency_distribution.

(** Iterating over a slot in a [for] statement: only a list is iterable. *)
Definition iter_pairs (v : value) : exn + list (Z * Z) :=
  match v with
  | VList l => inr l
  | _ => inl TypeError
  end.

(** ** The plot renderer *)

(** The mapping from database names to records (or [None]), in insertion
    order; the names of a dict are pairwise distinct. *)
Definition all_metrics_t : Type := list (string * option (gmap string (gmap string value))).

(** Truth value of [metrics_data]: [None] and the empty dict are false. *)
Definition record_truthy (md : option (gmap string (gmap string value))) : bool :=
  match md with
  | None => false
  | Some m => negb (Nat.eqb (size m) 0)
  end.

(** Lines 63 to 65 for one entry: the expanded UPDATE latencies when the
    database is selected for the plot. *)
Definition plot_entry (can_hold : Z -> bool) (md : option (gmap string (gmap string value)))
  : exn + option (list Z) :=
  match md with
  | Some m =>
      if record_truthy md then
        upd <- getitem m "UPDATE" ;;
        ops <- getitem upd "Operations" ;;
        if truthy ops then
          dist <- getitem upd "LatencyDistribution" ;;
          if truthy dist then
            pairs <- iter_pairs dist ;;
            update_latencies <- get_latency_values can_hold pairs ;;
            match update_latencies with
            | [] => inr None
            | _ => inr (Some update_latencies)
            end
          else inr None
        else inr None
      else inr None
  | None => inr None
  end.

(** The loop of lines 62 to 67, on [labels] and [data_to_plot]. *)
Fixpoint plot_loop (can_hold : Z -> bool) (items : all_metrics_t) (labels : list string)
    (data : list (list Z)) : exn + list string * list (list Z) :=
  match items with
  | [] => inr (labels, data)
  | (db_name, md) :: rest =>
      sel <- plot_entry can_hold md ;;
      match sel with
      | Some lat => plot_loop can_hold rest (labels ++ [db_name]) (data ++ [lat])
      | None => plot_loop can_hold rest labels data
      end
  end.

(** What [savefig] writes: a figure holding a text, or the box plot of
    the labelled sample groups. *)
Inductive figure : Type :=
  | Figure_message (text : string)
  | Figure_boxplot (labels : list string) (data : list (list Z)).

Record plot_output : Type := PlotOutput {
  saved_path : string;
  saved_figure : figure;
  plot_stderr : list diagnostic
}.

(** [generate_plot(all_metrics, output_image_path)]; the calls of the
    plotting library and the writing of the image are taken to succeed. *)
Definition generate_plot (can_hold : Z -> bool) (all_metrics : all_metrics_t)
    (output_image_path : string) : exn + plot_output :=
  r <- plot_loop can_hold all_metrics [] [] ;;
  let '(labels, data_to_plot) := r in
  match data_to_plot with
  | [] =>
      inr (PlotOutput output_image_path
             (Figure_message "No UPDATE latency data available for plotting.")
             [No_update_latency_data])
  | _ =>
      inr (PlotOutput output_image_path (Figure_boxplot labels data_to_plot) [])
  end.

(** ** The Markdown renderer *)

Definition nl : string := String (ascii_of_nat 10) EmptyString.

(** [sorted(all_metrics.items())]: the names being distinct, the order of
    two items is the order of their names, compared character by
    character. *)
Fixpoint insert_item {A : Type} (x : string * A) (l : list (string * A)) : list (string * A) :=
  match l with
  | [] => [x]
  | y :: l' => if String.leb (fst y) (fst x) then y :: insert_item x l' else x :: l
  end.

Definition sorted_items {A : Type} (l : list (string * A)) : list (string * A) :=
  fold_left (fun acc x => insert_item x acc) l [].

(** [os.path.basename(p)] *)
Definition basename (p : string) : string := List.last (split "/" p) EmptyString.

Section Markdown.

(** The text that formatting a float with no presentation type gives
    (its shortest decimal form that reads back as the same float). *)
Variable float_repr : spec_float -> string.

(** [f"{v:<w}"] for a slot obtained by [d.get(key, 'N/A')]: the default
    when the key is missing; [None] and lists reject the format
    specification. *)
Definition format_cell (d : gmap string value) (key : string) (w : nat) : exn + string :=
  match d !! key with
  | None => inr (ljust w "N/A")
  | Some (VFloat x) => inr (ljust w (float_repr x))
  | Some VNone => inl TypeError
  | Some (VList _) => inl TypeError
  end.

(** The line written for one database, lines 100 to 106. *)
Definition report_row (db_name : string) (md : option (gmap string (gmap string value)))
  : exn + string :=
  match md with
  | Some m =>
      if record_truthy md then
        overall <- getitem m "OVERALL" ;;
        update <- getitem m "UPDATE" ;;
        read <- getitem m "READ" ;;
        throughput <- format_cell overall "Throughput(ops/sec)" 28 ;;
        update_avg_latency <- format_cell update "AverageLatency(us)" 23 ;;
        read_avg_latency <- format_cell read "AverageLatency(us)" 21 ;;
        inr ("| " +:+ ljust 16 db_name +:+ " | " +:+ throughput +:+ " | "
             +:+ update_avg_latency +:+ " | " +:+ read_avg_latency +:+ " |" +:+ nl)
      else
        inr ("| " +:+ ljust 16 db_name
             +:+ " | N/A                          | N/A                     | N/A                   |" +:+ nl)
  | None =>
      inr ("| " +:+ ljust 16 db_name
           +:+ " | N/A                          | N/A                     | N/A                   |" +:+ nl)
  end.

(** The rows written until one raises. *)
Fixpoint report_rows (items : all_metrics_t) : list string * option exn :=
  match items with
  | [] => ([], None)
  | (db_name, md) :: rest =>
      match report_row db_name md with
      | inl e => ([], Some e)
      | inr row => let '(rows, e) := report_rows rest in (row :: rows, e)
      end
  end.

Definition report_header : string :=
  "# YCSB Benchmark Comparison Report" +:+ nl +:+ nl
  +:+ "This report summarizes the YCSB Workload A results for various databases." +:+ nl +:+ nl
  +:+ "## Overall Performance Summary" +:+ nl +:+ nl
  +:+ "| Database         | Overall Throughput (ops/sec) | UPDATE Avg Latency (us) | READ Avg Latency (us) |" +:+ nl
  +:+ "|------------------|------------------------------|-------------------------|-----------------------|" +:+ nl.

Definition report_plot_section (plot_exists : bool) (plot_image_path : string) : string :=
  "## UPDATE Latency Distribution" +:+ nl +:+ nl
  +:+ (if plot_exists
       then "![UPDATE Latency Box Plot](" +:+ basename plot_image_path +:+ ")" +:+ nl +:+ nl
            +:+ "*The box plot above shows the distribution of UPDATE latencies (in microseconds). Outliers are not shown for clarity.*" +:+ nl
       else "Latency plot could not be generated." +:+ nl).

Definition report_notes : string :=
  nl +:+ "## Notes" +:+ nl
  +:+ "- **Workload**: YCSB Workload A (50% Read, 50% Update)." +:+ nl
  +:+ "- **Latency Data**: The box plot visualizes the 0-1000us range primarily. For detailed percentile data beyond what YCSB typically outputs by default (e.g., for precise 25th, 50th, 75th percentiles needed for traditional box plots), YCSB may need specific configuration (`measurementtype=hdrhistogram` or `timeseries`) and post-processing of its raw output." +:+ nl
  +:+ "- **FoundationDB**: Results for FoundationDB are from its specific YCSB binding, which might report metrics differently than the JDBC binding used for others." +:+ nl.

Definition concat_strings (l : list string) : string :=
  fold_right String.append EmptyString l.

(** [generate_markdown_report(all_metrics, plot_image_path, output_md_path)]:
    the text written to the report file, and the exception that stopped
    the writing, if any. [plot_exists] is [os.path.exists(plot_image_path)]. *)
Definition generate_markdown_report (all_metrics : all_metrics_t)
    (plot_exists : bool) (plot_image_path : string) : string * option exn :=
  let '(rows, e) := report_rows (sorted_items all_metrics) in
  match e with
  | Some _ => (report_header +:+ concat_strings rows, e)
  | None =>
      (report_header +:+ concat_strings rows +:+ nl
       +:+ report_plot_section plot_exists plot_image_path
       +:+ report_notes, None)
  end.

End Markdown.

(** ** The driver *)

Definition db_results_files : list (string * string) :=
  [ ("PostgreSQL", "./postgresql_results.txt");
    ("CockroachDB", "./cockroachdb_results.txt");
    ("FoundationDB", "./foundationdb_results.txt");
    ("SQLite", "./sqlite_results.txt");
    ("DuckDB", "./duckdb_results.txt") ].

Definition plot_file : string := "latency_comparison_plot.png".
Definition report_file : string := "benchmark_report.md".

(** [d[k] = v] on a dict kept in insertion order. *)
Fixpoint dict_set {A : Type} (k : string) (v : A) (d : list (string * A)) : list (string * A) :=
  match d with
  | [] => [(k, v)]
  | (k', v') :: d' => if String.eqb k' k then (k, v) :: d' else (k', v') :: dict_set k v d'
  end.

(** [d.get(k)] on such a dict. *)
Fixpoint dict_get {A : Type} (k : string) (d : list (string * A)) : option A :=
  match d with
  | [] => None
  | (k', v') :: d' => if String.eqb k' k then Some v' else dict_get k d'
  end.

(** The loop of lines 134 to 137 over [files]: the mapping built, with
    the lines printed on the standard error. *)
Fixpoint aggregate (fs : filesystem) (files : list (string * string))
    (all_db_metrics : all_metrics_t) (err : list diagnostic)
  : all_metrics_t * list diagnostic :=
  match files with
  | [] => (all_db_metrics, err)
  | (db, filepath) :: rest =>
      let '(m, d) := parse_ycsb_output fs filepath in
      aggregate fs rest (dict_set db m all_db_metrics) (err ++ d)
  end.

(** What a run of the script leaves: the mapping, the diagnostics, the
    plot and the report text when they were written, and the exception
    that ended the run, if any. *)
Record run : Type := Run {
  run_metrics : all_metrics_t;
  run_stderr : list diagnostic;
  run_plot : option plot_output;
  run_report : option string;
  run_exn : option exn
}.

Definition main (float_repr : spec_float -> string) (can_hold : Z -> bool)
    (fs : filesystem) : run :=
  let '(all_db_metrics, err) := aggregate fs db_results_files [] [] in
  match generate_plot can_hold all_db_metrics plot_file with
  | inl e => Run all_db_metrics err None None (Some e)
  | inr p =>
      let '(text, e) := generate_markdown_report float_repr all_db_metrics true plot_file in
      Run all_db_metrics (err ++ plot_stderr p) (Some p) (Some text) e
  end.

(** ** Shape of the records that the parser builds *)

(** The record has the three sections it starts with and no other, and
    each section has at least the labels it starts with. *)
Definition shaped (m : gmap string (gmap string value)) : Prop :=
  dom m = dom initial_metrics
  /\ forall sec d0, initial_metrics !! sec = Some d0 ->
       exists d, m !! sec = Some d /\ dom d0 ⊆ dom d.

(** The slot [key] of the UPDATE section. *)
Definition update_slot (m : gmap string (gmap string value)) (key : string) : option value :=
  match m !! "UPDATE" with
  | Some d => d !! key
  | None => None
  end.

(** The states that the loop can be in: those reached from the initial
    one by some lines. *)
Definition reachable (st : pstate) : Prop :=
  exists ls, process_lines initial_state ls = inr st.

(** ** Vocabulary of the statements *)

(** The repetitions that one pair of a distribution stands for. *)
Definition expand_pair (p : Z * Z) : list Z := repeat (fst p) (Z.to_nat (snd p)).

(** The sum of the counts of a distribution, and the sum of their
    non-negative parts. *)
Definition sum_counts (d : list (Z * Z)) : Z :=
  fold_right (fun p acc => snd p + acc) 0 d.

Definition sum_nonneg_counts (d : list (Z * Z)) : Z :=
  fold_right (fun p acc => Z.max 0 (snd p) + acc) 0 d.

(** A working directory with one readable file. *)
Definition single_file (path : string) (ls : list string) : filesystem :=
  fun p => if String.eqb p path then inr (Opened ls None) else inl FileNotFoundError.

(** The mapping that the driver's loop builds. *)
Definition all_db_metrics (fs : filesystem) : all_metrics_t :=
  fst (aggregate fs db_results_files [] []).

(** The record that the parser builds from the lines of a readable file. *)
Definition record_of_lines (ls : list string) : option (gmap string (gmap string value)) :=
  match process_lines initial_state ls with
  | inr st => Some (st_metrics st)
  | inl _ => None
  end.

(** The labels of the sample groups of a figure. *)
Definition figure_labels (f : figure) : list string :=
  match f with
  | Figure_boxplot labels _ => labels
  | Figure_message _ => []
  end.

(** The record of a file that reports zero UPDATE operations and two
    histogram rows. *)
Definition zero_ops_record : gmap string (gmap string value) :=
  <["UPDATE" :=
      <["LatencyDistribution" := VList [(1, 5); (2, 3)]]> (
      <["Operations" := VFloat (S754_zero false)]> op_section)]> initial_metrics.

(** Two items are in order when their names are. *)
Definition name_le {A : Type} (x y : string * A) : Prop :=
  String.leb (fst x) (fst y) = true.

(** Lists are held by the [LatencyDistribution] slots of the UPDATE and
    READ sections and by no other slot. *)
Definition lists_only_in_distribution (m : gmap string (gmap string value)) : Prop :=
  forall sec d k l, m !! sec = Some d -> d !! k = Some (VList l) ->
    k = "LatencyDistribution" /\ (sec = "UPDATE" \/ sec = "READ").

(** The state after the marker line [[UPDATE]] and the row [1,5]. *)
Definition state_one_row : pstate :=
  PState (<["UPDATE" := <["LatencyDistribution" := VList [(1, 5)]]> op_section]> initial_metrics)
    (Some "UPDATE").

(** The state after a metric row named [LatencyDistribution]. *)
Definition state_overwritten : pstate :=
  PState (<["UPDATE" :=
             <["LatencyDistribution" := VFloat (S754_finite false 4503599627370496 (-51))]>
               op_section]> initial_metrics)
    (Some "UPDATE").

(** The slot [key] of the section [sec] of a record. *)
Definition section_slot (m : gmap string (gmap string value)) (sec key : string)
  : option value :=
  match m !! sec with
  | Some d => d !! key
  | None => None
  end.

(** A line of the summary table, from the name and the three cells. *)
Definition table_row (db_name c1 c2 c3 : string) : string :=
  "| " +:+ ljust 16 db_name +:+ " | " +:+ c1 +:+ " | " +:+ c2 +:+ " | " +:+ c3
  +:+ " |" +:+ nl.

(** The line of the table that stands for an item of the mapping: the
    placeholder in the three cells for an absent record, the three
    formatted floats for a record that has them. *)
Definition row_for (float_repr : spec_float -> string)
    (item : string * option (gmap string (gmap string value))) (row : string) : Prop :=
  match snd item with
  | None =>
      row = table_row (fst item) (ljust 28 "N/A") (ljust 23 "N/A") (ljust 21 "N/A")
  | Some m =>
      exists x y z,
        section_slot m "OVERALL" "Throughput(ops/sec)" = Some (VFloat x)
        /\ section_slot m "UPDATE" "AverageLatency(us)" = Some (VFloat y)
        /\ section_slot m "READ" "AverageLatency(us)" = Some (VFloat z)
        /\ row = table_row (fst item) (ljust 28 (float_repr x)) (ljust 23 (float_repr y))
                   (ljust 21 (float_repr z))
  end.

(** The record of a file with a metric row that adds the label [Foo] to
    the UPDATE section, a histogram row, a line that is ignored and a
    metric row of the READ section. *)
Definition sample_record : gmap string (gmap string value) :=
  <["READ" := <["Operations" := VFloat (S754_finite false 4503599627370496 (-50))]> op_section]> (
  <["UPDATE" :=
      <["LatencyDistribution" := VList [(1, 5)]]> (
      <["Foo" := VFloat (S754_finite false 4503599627370496 (-52))]> op_section)]>
    initial_metrics).

(** * Properties *)

(** ** Text lemmas *)

Lemma prefix_app (p s : string) :
  String.prefix p s = true -> exists r, s = String.append p r.
Proof.
  revert s. induction p as [|a p IH]; intros s H.
  - exists s. reflexivity.
  - destruct s as [|b s]; simpl in H; [discriminate|].
    destruct (ascii_dec a b) as [->|]; [|discriminate].
    destruct (IH s H) as [r ->]. exists r. reflexivity.
Qed.

Lemma startswith_head (c : ascii) (s : string) (a : ascii) (p : string) :
  startswith (String c s) (String a p) = true -> c = a.
Proof.
  unfold startswith. simpl. destruct (ascii_dec a c); [auto | discriminate].
Qed.

Lemma startswith_cons_ne (c : ascii) (s : string) (a : ascii) (p : string) :
  c <> a -> startswith (String c s) (String a p) = false.
Proof.
  intros Hne. destruct (startswith (String c s) (String a p)) eqn:E; [|reflexivity].
  apply startswith_head in E. contradiction.
Qed.

(** A histogram row does not start with a bracket, so it is none of the
    marker lines that the parser tests first. *)
Lemma histogram_not_marker (line : string) :
  histogram_shaped line = true ->
  startswith line "[OVERALL]" = false
  /\ startswith line "[UPDATE]" = false
  /\ startswith line "[READ]" = false.
Proof.
  intros H. destruct line as [|c s]; [discriminate|].
  assert (Hc : c <> "["%char).
  { intros ->. unfold histogram_shaped, startswith in H. simpl in H. discriminate. }
  repeat split; apply startswith_cons_ne; assumption.
Qed.

Lemma split_go_cons (sep : string) (c : ascii) (s : string) :
  split_go sep 0 (String c s) =
  if String.prefix sep (String c s)
  then (EmptyString,
        let '(p, ps) := split_go sep (Nat.pred (String.length sep)) s in p :: ps)
  else let '(p, ps) := split_go sep 0 s in (String c p, ps).
Proof. reflexivity. Qed.

(** The first part of a split is a prefix of the text. *)
Lemma split_go_prefix (sep s : string) :
  exists r, s = String.append (fst (split_go sep 0 s)) r.
Proof.
  induction s as [|c s IH].
  - exists EmptyString. reflexivity.
  - rewrite split_go_cons. destruct (String.prefix sep (String c s)).
    + exists (String c s). reflexivity.
    + destruct (split_go sep 0 s) as [p ps]. simpl in *.
      destruct IH as [r Hr]. exists r.
      change (String c s = String c (p +:+ r)). f_equal. exact Hr.
Qed.

Lemma part0_split (sep s : string) : part 0 (split sep s) = fst (split_go sep 0 s).
Proof. unfold split, part. destruct (split_go sep 0 s). reflexivity. Qed.

(** ** [int] raises nothing but [ValueError] *)

Lemma int_error (s : string) (e : exn) : int s = inl e -> e = ValueError.
Proof.
  unfold int. destruct (split_sign _) as [neg body].
  repeat case_match; congruence.
Qed.

Lemma unpack_int_pair_error (parts : list string) (e : exn) :
  unpack_int_pair parts = inl e -> e = ValueError.
Proof.
  unfold unpack_int_pair, bind.
  destruct parts as [|a [|b [|c parts]]]; try congruence.
  destruct (int a) eqn:Ha; [apply int_error in Ha; congruence|].
  destruct (int b) eqn:Hb; [apply int_error in Hb; congruence|].
  discriminate.
Qed.

(** ** The loop over the lines *)

Lemma process_lines_app (st : pstate) (a b : list string) :
  process_lines st (a ++ b) = (st' <- process_lines st a ;; process_lines st' b).
Proof.
  revert st. induction a as [|l a IH]; intros st; simpl; [reflexivity|].
  destruct (process_line st l); simpl; [reflexivity | apply IH].
Qed.

(** A histogram row whose integer conversion fails changes nothing. *)
Lemma process_line_bad_row (st : pstate) (raw : string) (e : exn) :
  histogram_shaped (strip raw) = true ->
  unpack_int_pair (split "," (strip raw)) = inl e ->
  process_line st raw = inr st.
Proof.
  intros Hh Hu. unfold process_line.
  destruct (histogram_not_marker _ Hh) as (-> & -> & ->). simpl.
  rewrite Hh, andb_true_r.
  destruct (str_truthy _); [|reflexivity].
  destruct (is_op_section _); [|reflexivity].
  rewrite Hu. simpl. apply unpack_int_pair_error in Hu. subst e. reflexivity.
Qed.

(** ** The shape is kept by the parser *)

Lemma initial_shaped : shaped initial_metrics.
Proof. split; [reflexivity|]. intros sec d0 H. exists d0. split; [exact H | set_solver]. Qed.

Lemma insert_section_shaped (m : gmap string (gmap string value)) (sec : string)
    (d d' : gmap string value) :
  shaped m -> m !! sec = Some d -> dom d ⊆ dom d' -> shaped (<[sec := d']> m).
Proof.
  intros [Hdom Hsec] Hd Hsub. split.
  - rewrite <- Hdom. apply dom_insert_lookup_L. eauto.
  - intros sec' d0 H0. destruct (Hsec sec' d0 H0) as (d1 & Hd1 & Hs1).
    destruct (decide (sec = sec')) as [->|Hne].
    + rewrite lookup_insert_eq. exists d'. split; [reflexivity|].
      rewrite Hd in Hd1. injection Hd1 as ->. etrans; eassumption.
    + rewrite lookup_insert_ne by exact Hne. eauto.
Qed.

Lemma setitem2_shaped (m m' : gmap string (gmap string value)) (sec key : string) (v : value) :
  shaped m -> setitem2 m sec key v = inr m' -> shaped m'.
Proof.
  intros Hm. unfold setitem2, getitem, bind.
  destruct (m !! sec) as [d|] eqn:Hd; [|discriminate].
  intros [= <-]. eapply insert_section_shaped; eauto.
  rewrite dom_insert_L. set_solver.
Qed.

Lemma append_distribution_shaped (m m' : gmap string (gmap string value)) (sec : string)
    (p : Z * Z) :
  shaped m -> append_distribution m sec p = inr m' -> shaped m'.
Proof.
  intros Hm. unfold append_distribution, getitem, bind.
  destruct (m !! sec) as [d|] eqn:Hd; [|discriminate].
  destruct (d !! "LatencyDistribution") as [[| |l]|]; try discriminate.
  intros [= <-]. eapply insert_section_shaped; eauto.
  rewrite dom_insert_L. set_solver.
Qed.

Lemma process_line_shaped (st st' : pstate) (raw : string) :
  shaped (st_metrics st) -> process_line st raw = inr st' -> shaped (st_metrics st').
Proof.
  intros Hm. unfold process_line, bind.
  repeat case_match; try discriminate; intros [= <-]; simpl; try assumption;
    repeat match goal with
    | H : setitem2 _ _ _ _ = inr _ |- _ => apply setitem2_shaped in H; [|assumption]
    | H : append_distribution _ _ _ = inr _ |- _ =>
        apply append_distribution_shaped in H; [|assumption]
    end; assumption.
Qed.

Lemma process_lines_shaped (ls : list string) (st st' : pstate) :
  shaped (st_metrics st) -> process_lines st ls = inr st' -> shaped (st_metrics st').
Proof.
  revert st. induction ls as [|l ls IH]; intros st Hm; simpl.
  - intros [= <-]. exact Hm.
  - destruct (process_line st l) as [e|st1] eqn:E; simpl; [discriminate|].
    apply IH. eapply process_line_shaped; eauto.
Qed.

Lemma reachable_shaped (st : pstate) : reachable st -> shaped (st_metrics st).
Proof.
  intros [ls H]. eapply process_lines_shaped; [|exact H]. exact initial_shaped.
Qed.

(** ** Expansion of a distribution *)

Lemma list_repeat_inr (can_hold : Z -> bool) (x count : Z) (r : list Z) :
  list_repeat can_hold x count = inr r -> r = repeat x (Z.to_nat count).
Proof.
  unfold list_repeat.
  destruct ((count <? - ssize_max - 1) || (ssize_max <? count)); [discriminate|].
  destruct (count <=? 0) eqn:E.
  - intros [= <-]. apply Z.leb_le in E.
    replace (Z.to_nat count) with 0%nat by lia. reflexivity.
  - destruct (can_hold count); [|discriminate]. intros [= <-]. reflexivity.
Qed.

Lemma list_extend_inr (can_hold : Z -> bool) (l new r : list Z) :
  list_extend can_hold l new = inr r -> r = l ++ new.
Proof.
  unfold list_extend. destruct new as [|x new].
  - intros [= <-]. symmetry. apply app_nil_r.
  - destruct (can_hold _); [|discriminate]. intros [= <-]. reflexivity.
Qed.

Lemma expand_loop_inr (can_hold : Z -> bool) (d : list (Z * Z)) (acc r : list Z) :
  expand_loop can_hold acc d = inr r -> r = acc ++ flat_map expand_pair d.
Proof.
  revert acc. induction d as [|[v c] d IH]; intros acc; simpl.
  - intros [= <-]. symmetry. apply app_nil_r.
  - destruct (list_repeat can_hold v c) as [e|new] eqn:Hn; simpl; [discriminate|].
    destruct (list_extend can_hold acc new) as [e|acc'] eqn:He; simpl; [discriminate|].
    intros H. apply IH in H. apply list_repeat_inr in Hn. apply list_extend_inr in He.
    subst. unfold expand_pair at 2. simpl. symmetry. apply app_assoc.
Qed.

Lemma get_latency_values_flat (can_hold : Z -> bool) (d : list (Z * Z)) (r : list Z) :
  get_latency_values can_hold d = inr r -> r = flat_map expand_pair d.
Proof. unfold get_latency_values. intros H. apply expand_loop_inr in H. exact H. Qed.

Lemma length_flat_expand (d : list (Z * Z)) :
  Z.of_nat (length (flat_map expand_pair d)) = sum_nonneg_counts d.
Proof.
  induction d as [|[v c] d IH]; simpl; [reflexivity|].
  rewrite length_app, Nat2Z.inj_add, IH. unfold expand_pair. simpl.
  rewrite repeat_length. lia.
Qed.

Lemma sum_nonneg_counts_eq (d : list (Z * Z)) :
  Forall (fun p => 0 <= snd p) d -> sum_nonneg_counts d = sum_counts d.
Proof.
  induction 1 as [|p d Hp _ IH]; simpl; [reflexivity|]. rewrite IH. lia.
Qed.

Lemma sum_nonneg_counts_nonneg (d : list (Z * Z)) : 0 <= sum_nonneg_counts d.
Proof. induction d as [|p d IH]; simpl; lia. Qed.

(** The expansion returns when every count fits an index and memory
    allows every list up to the length of the result. *)
Lemma expand_loop_returns (can_hold : Z -> bool) (d : list (Z * Z)) (acc : list Z) :
  Forall (fun p => - ssize_max - 1 <= snd p <= ssize_max) d ->
  (forall n, 0 < n <= Z.of_nat (length acc) + sum_nonneg_counts d -> can_hold n = true) ->
  expand_loop can_hold acc d = inr (acc ++ flat_map expand_pair d).
Proof.
  revert acc. induction d as [|[v c] d IH]; intros acc Hr Hm; simpl.
  - rewrite app_nil_r. reflexivity.
  - apply Forall_cons in Hr. destruct Hr as [Hc Hr]. simpl in Hc, Hm.
    pose proof (sum_nonneg_counts_nonneg d) as Hd.
    assert (Hrep : list_repeat can_hold v c = inr (repeat v (Z.to_nat c))).
    { unfold list_repeat.
      replace ((c <? - ssize_max - 1) || (ssize_max <? c)) with false
        by (symmetry; apply orb_false_iff; split; [apply Z.ltb_ge | apply Z.ltb_ge]; lia).
      destruct (c <=? 0) eqn:E.
      - apply Z.leb_le in E. replace (Z.to_nat c) with 0%nat by lia. reflexivity.
      - apply Z.leb_gt in E. rewrite Hm by lia. reflexivity. }
    rewrite Hrep. simpl.
    assert (Hext : list_extend can_hold acc (repeat v (Z.to_nat c))
                   = inr (acc ++ repeat v (Z.to_nat c))).
    { unfold list_extend. destruct (repeat v (Z.to_nat c)) as [|x new] eqn:E.
      - rewrite app_nil_r. reflexivity.
      - rewrite <- E, repeat_length.
        assert (Hpos : (0 < Z.to_nat c)%nat)
          by (destruct (Z.to_nat c); [discriminate | lia]).
        rewrite Hm by lia. reflexivity. }
    rewrite Hext. simpl. rewrite IH.
    + unfold expand_pair at 2. simpl. rewrite <- app_assoc. reflexivity.
    + exact Hr.
    + intros n Hn. apply Hm. rewrite length_app, repeat_length in Hn. lia.
Qed.

(** C4 (as amended): whenever the expansion returns, each pair of the
    distribution has contributed, in order, as many repetitions of its
    value as its count says, and none when the count is negative; the
    length of the result is the sum of the non-negative parts of the
    counts, which is the sum of the counts when none is negative; and
    reordering the rows only reorders the result. The expansion returns
    when every count fits an index and memory allows the lists; the rows
    (1,5) and (2,3) then give five 1's and three 2's. *)
Theorem get_latency_values_expansion (can_hold : Z -> bool) (d d' : list (Z * Z))
    (r r' : list Z) :
  Permutation d d' ->
  get_latency_values can_hold d = inr r ->
  get_latency_values can_hold d' = inr r' ->
  r = flat_map expand_pair d
  /\ Z.of_nat (length r) = sum_nonneg_counts d
  /\ (Forall (fun p => 0 <= snd p) d -> Z.of_nat (length r) = sum_counts d)
  /\ Permutation r r'
  /\ (forall e : list (Z * Z),
        Forall (fun p => - ssize_max - 1 <= snd p <= ssize_max) e ->
        (forall n, 0 < n <= sum_nonneg_counts e -> can_hold n = true) ->
        get_latency_values can_hold e = inr (flat_map expand_pair e))
  /\ get_latency_values (fun n => n <=? 8) [(1, 5); (2, 3)]
     = inr [1; 1; 1; 1; 1; 2; 2; 2].
Proof.
  intros Hp Hr Hr'.
  apply get_latency_values_flat in Hr, Hr'. subst r r'.
  split; [reflexivity|]. split; [apply length_flat_expand|].
  split; [intros Hd; rewrite length_flat_expand; apply sum_nonneg_counts_eq, Hd|].
  split; [apply Permutation_flat_map, Hp|].
  split; [|reflexivity].
  intros e He Hm. unfold get_latency_values.
  apply (expand_loop_returns can_hold e [] He). exact Hm.
Qed.

Lemma get_latency_values_expansion_witness :
  Permutation [(1, 5); (2, 3)] [(2, 3); (1, 5)]
  /\ get_latency_values (fun n => n <=? 8) [(1, 5); (2, 3)] = inr [1; 1; 1; 1; 1; 2; 2; 2]
  /\ get_latency_values (fun n => n <=? 8) [(2, 3); (1, 5)] = inr [2; 2; 2; 1; 1; 1; 1; 1]
  /\ Z.of_nat (length [1; 1; 1; 1; 1; 2; 2; 2]) = 8
  /\ Permutation [1; 1; 1; 1; 1; 2; 2; 2] [2; 2; 2; 1; 1; 1; 1; 1].
Proof.
  assert (Hp : Permutation [(1, 5); (2, 3)] [(2, 3); (1, 5)]) by apply perm_swap.
  assert (H1 : get_latency_values (fun n => n <=? 8) [(1, 5); (2, 3)]
               = inr [1; 1; 1; 1; 1; 2; 2; 2]) by reflexivity.
  assert (H2 : get_latency_values (fun n => n <=? 8) [(2, 3); (1, 5)]
               = inr [2; 2; 2; 1; 1; 1; 1; 1]) by reflexivity.
  destruct (get_latency_values_expansion _ _ _ _ _ Hp H1 H2) as (_ & Hlen & _ & Hperm & _).
  split; [exact Hp|]. split; [exact H1|]. split; [exact H2|].
  split; [exact Hlen | exact Hperm].
Defined.

(** C4 (as stated) fails, even when memory never runs out: a row with a
    negative count, which the parser accepts, contributes nothing, so the
    length is not the sum of the counts; and a count that does not fit an
    index raises instead of contributing. *)
Lemma get_latency_values_negative_count :
  match process_lines initial_state ["[UPDATE]"; "1,-5"] with
  | inr st => update_slot (st_metrics st) "LatencyDistribution"
  | inl _ => None
  end = Some (VList [(1, -5)])
  /\ get_latency_values (fun _ => true) [(1, -5)] = inr []
  /\ get_latency_values (fun _ => true) [(1, 2 ^ 63)] = inl OverflowError
  /\ ~ (forall d, exists r, get_latency_values (fun _ => true) d = inr r
                          /\ Z.of_nat (length r) = sum_counts d).
Proof.
  split; [vm_compute; reflexivity|]. split; [reflexivity|]. split; [reflexivity|].
  intros H. destruct (H [(1, -5)]) as (r & Hr & Hlen).
  injection Hr as <-. vm_compute in Hlen. discriminate.
Qed.

(** ** Rows that are not integers *)

(** C5: inside an UPDATE or READ section, a histogram-shaped line whose
    fields fail the integer conversion is dropped: the line raises
    nothing and leaves the whole state, with the distributions gathered
    so far, as it was, and the file parses to what it would without the
    line. *)
Theorem bad_histogram_row_dropped (pre post : list string) (raw : string)
    (st : pstate) (e : exn) :
  process_lines initial_state pre = inr st ->
  is_op_section (current_section st) = true ->
  histogram_shaped (strip raw) = true ->
  unpack_int_pair (split "," (strip raw)) = inl e ->
  process_line st raw = inr st
  /\ process_lines initial_state (pre ++ raw :: post)
     = process_lines initial_state (pre ++ post)
  /\ forall (fs fs' : filesystem) (path : string) (re : option exn),
       fs path = inr (Opened (pre ++ raw :: post) re) ->
       fs' path = inr (Opened (pre ++ post) re) ->
       parse_ycsb_output fs path = parse_ycsb_output fs' path.
Proof.
  intros Hpre _ Hh Hu.
  assert (Hline : process_line st raw = inr st)
    by (eapply process_line_bad_row; eassumption).
  assert (Hall : process_lines initial_state (pre ++ raw :: post)
                 = process_lines initial_state (pre ++ post)).
  { rewrite !process_lines_app, Hpre. simpl. rewrite Hline. reflexivity. }
  repeat split; [exact Hline | exact Hall |].
  intros fs fs' path re Hfs Hfs'.
  unfold parse_ycsb_output, parse_body. rewrite Hfs, Hfs'. simpl.
  rewrite Hall. reflexivity.
Qed.

Lemma bad_histogram_row_dropped_witness :
  histogram_shaped (strip ">1000,0") = true
  /\ unpack_int_pair (split "," (strip ">1000,0")) = inl ValueError
  /\ process_lines initial_state ["[UPDATE]"; "1,5"; ">1000,0"; "2,3"]
     = process_lines initial_state ["[UPDATE]"; "1,5"; "2,3"].
Proof.
  assert (Hh : histogram_shaped (strip ">1000,0") = true) by reflexivity.
  assert (Hu : unpack_int_pair (split "," (strip ">1000,0")) = inl ValueError)
    by reflexivity.
  split; [exact Hh|]. split; [exact Hu|].
  destruct (process_lines initial_state ["[UPDATE]"; "1,5"]) as [e0|st] eqn:Hpre;
    [vm_compute in Hpre; discriminate|].
  assert (Hs : is_op_section (current_section st) = true).
  { vm_compute in Hpre. injection Hpre as <-. reflexivity. }
  exact (proj1 (proj2
    (bad_histogram_row_dropped ["[UPDATE]"; "1,5"] ["2,3"] ">1000,0" st ValueError
       Hpre Hs Hh Hu))).
Defined.

(** ** The OVERALL rows *)

(** C1 (fails on the code): on the two OVERALL rows of a YCSB summary the
    parser converts the label of the row to a float, which raises, and
    the file is reported absent instead of yielding the run time and the
    throughput. *)
Theorem overall_label_rows_absent :
  (forall st, process_line st "[OVERALL], RunTime(ms), 12345" = inl ValueError)
  /\ parse_ycsb_output
       (single_file "r.txt"
          ["[OVERALL], RunTime(ms), 12345"; "[OVERALL], Throughput(ops/sec), 99.9"])
       "r.txt"
     = (None, [Warning_error_parsing "r.txt" ValueError]).
Proof. split; [intros st|]; vm_compute; reflexivity. Qed.

(** ** The parser returns *)

Lemma parse_cases (fs : filesystem) (filepath : string) :
  match parse_body fs filepath with
  | inr st => parse_ycsb_output fs filepath = (Some (st_metrics st), [])
  | inl FileNotFoundError =>
      parse_ycsb_output fs filepath = (None, [Warning_file_not_found filepath])
  | inl e => parse_ycsb_output fs filepath = (None, [Warning_error_parsing filepath e])
  end.
Proof.
  unfold parse_ycsb_output. destruct (parse_body fs filepath) as [[]|st]; reflexivity.
Qed.

Lemma parse_body_error_absent (fs : filesystem) (filepath : string) (e : exn) :
  parse_body fs filepath = inl e ->
  fst (parse_ycsb_output fs filepath) = None
  /\ (snd (parse_ycsb_output fs filepath) = [Warning_file_not_found filepath]
      \/ snd (parse_ycsb_output fs filepath) = [Warning_error_parsing filepath e]).
Proof.
  intros H. unfold parse_ycsb_output. rewrite H. destruct e; simpl; auto.
Qed.

(** The loop of the driver gives every database its entry, which holds
    what the parser returned for the file of that database. *)
Lemma all_db_metrics_keys (fs : filesystem) :
  map fst (all_db_metrics fs) = map fst db_results_files.
Proof.
  unfold all_db_metrics, db_results_files. cbn [aggregate].
  repeat destruct (parse_ycsb_output fs _) as [? ?]. reflexivity.
Qed.

Lemma all_db_metrics_entry (fs : filesystem) (db path : string) :
  In (db, path) db_results_files ->
  dict_get db (all_db_metrics fs) = Some (fst (parse_ycsb_output fs path)).
Proof.
  intros Hin. unfold all_db_metrics, db_results_files in *. cbn [aggregate].
  repeat match goal with
  | |- context [parse_ycsb_output fs ?p] =>
      lazymatch p with
      | path => fail
      | _ => let m := fresh "m" in let d := fresh "d" in
             destruct (parse_ycsb_output fs p) as [m d] eqn:?
      end
  end.
  simpl in Hin.
  repeat (destruct Hin as [Hin|Hin]; [injection Hin as <- <-|]); try contradiction;
    repeat match goal with H : parse_ycsb_output fs _ = _ |- _ => rewrite H end;
    reflexivity.
Qed.

(** C2: the parser returns for every path, with a record and no
    diagnostic or with [None] and one warning; a file that cannot be
    opened, a read that fails and a line that raises all give [None] with
    a warning; and the driver's loop goes on, giving every database its
    entry, which is what the parser returned for its file. *)
Theorem parse_never_raises (fs : filesystem) (filepath : string) :
  ((exists m, parse_ycsb_output fs filepath = (Some m, []))
   \/ parse_ycsb_output fs filepath = (None, [Warning_file_not_found filepath])
   \/ exists e, parse_ycsb_output fs filepath = (None, [Warning_error_parsing filepath e]))
  /\ (fs filepath = inl FileNotFoundError ->
      parse_ycsb_output fs filepath = (None, [Warning_file_not_found filepath]))
  /\ (forall e, fs filepath = inl e -> e <> FileNotFoundError ->
      parse_ycsb_output fs filepath = (None, [Warning_error_parsing filepath e]))
  /\ (forall f e, fs filepath = inr f ->
      process_lines initial_state (file_lines f) = inl e \/ read_error f = Some e ->
      fst (parse_ycsb_output fs filepath) = None
      /\ exists w, snd (parse_ycsb_output fs filepath) = [w])
  /\ map fst (all_db_metrics fs) = map fst db_results_files
  /\ forall db path, In (db, path) db_results_files ->
      dict_get db (all_db_metrics fs) = Some (fst (parse_ycsb_output fs path)).
Proof.
  split; [|split; [|split; [|split; [|split]]]].
  - pose proof (parse_cases fs filepath) as H.
    destruct (parse_body fs filepath) as [e|st].
    + destruct e; eauto.
    + eauto.
  - intros H. unfold parse_ycsb_output, parse_body. rewrite H. reflexivity.
  - intros e H Hne. unfold parse_ycsb_output, parse_body. rewrite H. simpl.
    destruct e; congruence.
  - intros f e Hf He.
    assert (Hb : exists e', parse_body fs filepath = inl e').
    { unfold parse_body. rewrite Hf. simpl.
      destruct (process_lines initial_state (file_lines f)) as [e0|st]; simpl; [eauto|].
      destruct He as [He|He]; [discriminate|]. rewrite He. eauto. }
    destruct Hb as [e' Hb]. destruct (parse_body_error_absent _ _ _ Hb) as [H1 [H2|H2]];
      split; eauto.
  - apply all_db_metrics_keys.
  - intros db path. apply all_db_metrics_entry.
Qed.

(** ** Absent records in the driver's mapping *)

Lemma main_metrics (float_repr : spec_float -> string) (can_hold : Z -> bool)
    (fs : filesystem) :
  run_metrics (main float_repr can_hold fs) = all_db_metrics fs.
Proof.
  unfold main, all_db_metrics.
  destruct (aggregate fs db_results_files [] []) as [all err]. simpl.
  destruct (generate_plot can_hold all plot_file); [reflexivity|].
  destruct (generate_markdown_report float_repr all true plot_file). reflexivity.
Qed.

(** C8: a database whose file does not exist gets [None] from the parser,
    not an empty record, and still has its entry in the driver's mapping,
    holding [None]; a database whose file parses has its record there
    instead, even a record of zero operations; and the mapping that the
    run ends with is the one that the loop built. *)
Theorem missing_file_recorded_absent (float_repr : spec_float -> string)
    (can_hold : Z -> bool) (fs : filesystem) (db filepath : string) :
  In (db, filepath) db_results_files ->
  fs filepath = inl FileNotFoundError ->
  parse_ycsb_output fs filepath = (None, [Warning_file_not_found filepath])
  /\ dict_get db (run_metrics (main float_repr can_hold fs)) = Some None
  /\ (forall db' filepath' m, In (db', filepath') db_results_files ->
      fst (parse_ycsb_output fs filepath') = Some m ->
      dict_get db' (run_metrics (main float_repr can_hold fs)) = Some (Some m))
  /\ match fst (parse_ycsb_output (single_file filepath ["[UPDATE], Operations, 0"]) filepath) with
     | Some m => update_slot m "Operations"
     | None => None
     end = Some (VFloat (S754_zero false))
  /\ run_metrics (main float_repr can_hold fs) = all_db_metrics fs.
Proof.
  intros Hin Hfs.
  assert (Hp : parse_ycsb_output fs filepath = (None, [Warning_file_not_found filepath])).
  { unfold parse_ycsb_output, parse_body. rewrite Hfs. reflexivity. }
  rewrite main_metrics. repeat split.
  - exact Hp.
  - rewrite (all_db_metrics_entry fs db filepath Hin), Hp. reflexivity.
  - intros db' filepath' m Hin' Hm.
    rewrite (all_db_metrics_entry fs db' filepath' Hin'), Hm. reflexivity.
  - unfold parse_ycsb_output, parse_body, single_file. rewrite String.eqb_refl.
    vm_compute. reflexivity.
Qed.

Lemma missing_file_recorded_absent_witness :
  dict_get "SQLite"
    (run_metrics (main (fun _ => EmptyString) (fun _ => true) (fun _ => inl FileNotFoundError)))
  = Some None.
Proof.
  refine (proj1 (proj2
    (missing_file_recorded_absent (fun _ => EmptyString) (fun _ => true)
       (fun _ => inl FileNotFoundError)
       "SQLite" "./sqlite_results.txt" _ _))).
  - simpl. do 3 right. left. reflexivity.
  - reflexivity.
Defined.

(** ** Selection for the plot *)

Lemma update_slot_lookup (m : gmap string (gmap string value)) (key : string) (v : value) :
  update_slot m key = Some v ->
  exists upd, m !! "UPDATE" = Some upd /\ upd !! key = Some v.
Proof.
  unfold update_slot. destruct (m !! "UPDATE") as [upd|]; [eauto | discriminate].
Qed.

(** A record whose operation count is falsy, or whose distribution is the
    empty list, is not selected. *)
Lemma plot_entry_falsy_ops (can_hold : Z -> bool) (m : gmap string (gmap string value))
    (ops : value) :
  update_slot m "Operations" = Some ops -> truthy ops = false ->
  plot_entry can_hold (Some m) = inr None.
Proof.
  intros H Ht. destruct (update_slot_lookup _ _ _ H) as (upd & Hu & Ho).
  unfold plot_entry. destruct (record_truthy (Some m)); [|reflexivity].
  unfold getitem, bind. rewrite Hu, Ho, Ht. reflexivity.
Qed.

Lemma plot_entry_falsy_distribution (can_hold : Z -> bool)
    (m : gmap string (gmap string value)) (dist : value) :
  is_Some (update_slot m "Operations") ->
  update_slot m "LatencyDistribution" = Some dist -> truthy dist = false ->
  plot_entry can_hold (Some m) = inr None.
Proof.
  intros [ops H] Hd Ht.
  destruct (update_slot_lookup _ _ _ H) as (upd & Hu & Ho).
  destruct (update_slot_lookup _ _ _ Hd) as (upd' & Hu' & Hl).
  rewrite Hu in Hu'. injection Hu' as <-.
  unfold plot_entry. destruct (record_truthy (Some m)); [|reflexivity].
  unfold getitem, bind. rewrite Hu, Ho. destruct (truthy ops); [|reflexivity].
  rewrite Hl, Ht. reflexivity.
Qed.

(** A record that the parser returns has the two slots that the
    selection reads. *)
Lemma parsed_record_slots (fs : filesystem) (filepath : string)
    (m : gmap string (gmap string value)) :
  fst (parse_ycsb_output fs filepath) = Some m ->
  is_Some (update_slot m "Operations") /\ is_Some (update_slot m "LatencyDistribution").
Proof.
  unfold parse_ycsb_output. destruct (parse_body fs filepath) as [e|st] eqn:Hb;
    [destruct e; discriminate|].
  simpl. intros [= <-].
  assert (Hs : shaped (st_metrics st)).
  { unfold parse_body, bind in Hb. destruct (fs filepath) as [|f]; [discriminate|].
    destruct (process_lines initial_state (file_lines f)) as [|st1] eqn:Hl; [discriminate|].
    destruct (read_error f); [discriminate|]. injection Hb as <-.
    apply reachable_shaped. exists (file_lines f). exact Hl. }
  destruct Hs as [_ Hsec].
  destruct (Hsec "UPDATE" op_section eq_refl) as (d & Hd & Hsub).
  unfold update_slot. rewrite Hd.
  split; apply elem_of_dom, Hsub; apply elem_of_dom; vm_compute; eauto.
Qed.

(** When a metric row named [LatencyDistribution] has replaced the list
    by a float, the selection passes and the expansion raises. *)
Lemma overwritten_distribution_raises :
  plot_entry (fun _ => true)
    (record_of_lines ["[UPDATE], Operations, 5"; "[UPDATE], LatencyDistribution, 2.0"])
  = inl TypeError.
Proof. vm_compute. reflexivity. Qed.

Lemma plot_loop_none (can_hold : Z -> bool) (items : all_metrics_t) (labels : list string)
    (data : list (list Z)) :
  (forall name md, In (name, md) items -> plot_entry can_hold md = inr None) ->
  plot_loop can_hold items labels data = inr (labels, data).
Proof.
  induction items as [|[name md] items IH]; intros H; simpl; [reflexivity|].
  rewrite (H name md) by (left; reflexivity). simpl.
  apply IH. intros n' md' Hin. apply (H n' md'). right. exact Hin.
Qed.

(** Every label of the plot is the name of a selected entry. *)
Lemma plot_loop_labels (can_hold : Z -> bool) (items : all_metrics_t)
    (labels labels' : list string)
    (data data' : list (list Z)) (name : string) :
  plot_loop can_hold items labels data = inr (labels', data') ->
  In name labels' ->
  In name labels
  \/ exists md lat, In (name, md) items /\ plot_entry can_hold md = inr (Some lat).
Proof.
  revert labels data. induction items as [|[k md] items IH]; intros labels data; simpl.
  - intros [= <- <-] Hin. left. exact Hin.
  - destruct (plot_entry can_hold md) as [e|[lat|]] eqn:E; simpl; [discriminate| |].
    + intros Hl Hin. destruct (IH _ _ Hl Hin) as [Hin'|(md' & lat' & Hi & Hp)].
      * apply in_app_or in Hin'. destruct Hin' as [Hin'|[<-|[]]]; [left; exact Hin'|].
        right. exists md, lat. split; [left; reflexivity | exact E].
      * right. exists md', lat'. split; [right; exact Hi | exact Hp].
    + intros Hl Hin. destruct (IH _ _ Hl Hin) as [Hin'|(md' & lat' & Hi & Hp)].
      * left. exact Hin'.
      * right. exists md', lat'. split; [right; exact Hi | exact Hp].
Qed.

Lemma nodup_keys_functional {A : Type} (l : list (string * A)) (k : string) (a b : A) :
  NoDup (map fst l) -> In (k, a) l -> In (k, b) l -> a = b.
Proof.
  induction l as [|[k' v] l IH]; simpl; intros Hnd Ha Hb; [contradiction|].
  apply NoDup_cons in Hnd. destruct Hnd as [Hnotin Hnd].
  rewrite list_elem_of_In in Hnotin.
  destruct Ha as [Ha|Ha], Hb as [Hb|Hb].
  - congruence.
  - exfalso. apply Hnotin. apply (in_map fst) in Hb. simpl in Hb. congruence.
  - exfalso. apply Hnotin. apply (in_map fst) in Ha. simpl in Ha. congruence.
  - apply IH; assumption.
Qed.

(** C7: when no database qualifies for the plot, that is, when every
    present record has an absent UPDATE operation count or an UPDATE
    distribution that is empty, the plot renderer raises nothing and
    saves, at the path it was given, a figure that holds the explanatory
    message, after printing the diagnostic. *)
Theorem no_plottable_data_placeholder (can_hold : Z -> bool) (all_metrics : all_metrics_t)
    (output_image_path : string) :
  (forall name m, In (name, Some m) all_metrics ->
     update_slot m "Operations" = Some VNone
     \/ (is_Some (update_slot m "Operations")
         /\ exists dist, update_slot m "LatencyDistribution" = Some dist
                        /\ truthy dist = false)) ->
  generate_plot can_hold all_metrics output_image_path
  = inr (PlotOutput output_image_path
           (Figure_message "No UPDATE latency data available for plotting.")
           [No_update_latency_data]).
Proof.
  intros H. unfold generate_plot.
  rewrite plot_loop_none; [reflexivity|].
  intros name [m|] Hin; [|reflexivity].
  destruct (H name m Hin) as [Hn|[Ho (dist & Hd & Ht)]].
  - eapply plot_entry_falsy_ops; [exact Hn | reflexivity].
  - eapply plot_entry_falsy_distribution; eassumption.
Qed.

Lemma no_plottable_data_placeholder_witness :
  saved_figure <$>
    match generate_plot (fun _ => true)
            [("SQLite", record_of_lines ["[UPDATE], Operations, 10"]);
             ("DuckDB", record_of_lines ["[UPDATE]"; "1,5"]);
             ("PostgreSQL", None)] plot_file with
    | inr out => Some out
    | inl _ => None
    end
  = Some (Figure_message "No UPDATE latency data available for plotting.").
Proof.
  rewrite (no_plottable_data_placeholder _ _ plot_file); [reflexivity|].
  intros name m Hin. simpl in Hin.
  destruct Hin as [Hin|[Hin|[Hin|[]]]]; [| |discriminate].
  - right. injection Hin as _ <-.
    split; [eexists; vm_compute; reflexivity|].
    exists (VList []). split; vm_compute; reflexivity.
  - left. injection Hin as _ <-. vm_compute. reflexivity.
Defined.

(** C9: the selection tests the truth value of the UPDATE operation
    count: a record whose count is a zero is not selected, whatever its
    distribution holds, so its database is not among the labels of the
    plot. *)
Theorem zero_operations_excluded (can_hold : Z -> bool) (all_metrics : all_metrics_t)
    (output_image_path name : string) (m : gmap string (gmap string value)) (z : bool) :
  NoDup (map fst all_metrics) ->
  In (name, Some m) all_metrics ->
  update_slot m "Operations" = Some (VFloat (S754_zero z)) ->
  plot_entry can_hold (Some m) = inr None
  /\ forall out, generate_plot can_hold all_metrics output_image_path = inr out ->
       ~ In name (figure_labels (saved_figure out)).
Proof.
  intros Hnd Hin Hops.
  assert (Hsel : plot_entry can_hold (Some m) = inr None)
    by (eapply plot_entry_falsy_ops; [exact Hops | reflexivity]).
  split; [exact Hsel|].
  intros out. unfold generate_plot.
  destruct (plot_loop can_hold all_metrics [] []) as [e|[labels data]] eqn:Hloop; simpl;
    [discriminate|].
  assert (Hnot : ~ In name labels).
  { intros Hl. destruct (plot_loop_labels _ _ _ _ _ _ name Hloop Hl)
      as [[]|(md & lat & Hi & Hp)].
    rewrite (nodup_keys_functional _ _ _ _ Hnd Hi Hin) in Hp. congruence. }
  destruct data; intros [= <-]; simpl; auto.
Qed.

Lemma zero_operations_excluded_witness :
  record_of_lines ["[UPDATE], Operations, 0"; "1,5"; "2,3"] = Some zero_ops_record
  /\ plot_entry (fun _ => true) (Some zero_ops_record) = inr None
  /\ (figure_labels <$>
      match generate_plot (fun _ => true)
              [("SQLite", Some zero_ops_record);
               ("DuckDB", record_of_lines ["[UPDATE], Operations, 8"; "1,5"; "2,3"])]
              plot_file with
      | inr out => Some (saved_figure out)
      | inl _ => None
      end) = Some ["DuckDB"].
Proof.
  split; [vm_compute; reflexivity|]. split; [|vm_compute; reflexivity].
  refine (proj1 (zero_operations_excluded (fun _ => true)
    [("SQLite", Some zero_ops_record); ("DuckDB", None)]
    plot_file "SQLite" zero_ops_record false _ _ _)).
  - apply NoDup_cons. split; [|apply NoDup_singleton].
    rewrite list_elem_of_In. intros [H|[]]. discriminate.
  - left. reflexivity.
  - vm_compute. reflexivity.
Defined.

(** ** The Markdown table *)

(** The rows of the table follow the names in increasing order, one row
    for each database. *)
Lemma insert_item_perm {A : Type} (x : string * A) (l : list (string * A)) :
  Permutation (insert_item x l) (x :: l).
Proof.
  induction l as [|y l IH]; simpl; [reflexivity|].
  destruct (String.leb (fst y) (fst x)); [|reflexivity].
  rewrite IH. apply perm_swap.
Qed.

Lemma insert_item_sorted {A : Type} (x : string * A) (l : list (string * A)) :
  Sorted name_le l -> Sorted name_le (insert_item x l).
Proof.
  induction 1 as [|y l Hs IH Hhd]; simpl.
  - repeat constructor.
  - destruct (String.leb (fst y) (fst x)) eqn:E.
    + constructor; [exact IH|].
      destruct Hhd as [|z l Hyz]; simpl.
      * constructor. exact E.
      * destruct (String.leb (fst z) (fst x)); constructor; [exact Hyz | exact E].
    + constructor; [constructor; assumption|]. constructor.
      destruct (String.leb_total (fst x) (fst y)) as [H|H]; [exact H | congruence].
Qed.

Lemma sorted_items_spec {A : Type} (l : list (string * A)) :
  Sorted name_le (sorted_items l) /\ Permutation (sorted_items l) l.
Proof.
  unfold sorted_items.
  assert (H : forall acc : list (string * A), Sorted name_le acc ->
            Sorted name_le (fold_left (fun acc x => insert_item x acc) l acc)
            /\ Permutation (fold_left (fun acc x => insert_item x acc) l acc) (acc ++ l)).
  { induction l as [|x l IH]; intros acc Hacc; simpl.
    - split; [exact Hacc | rewrite app_nil_r; reflexivity].
    - destruct (IH (insert_item x acc) (insert_item_sorted x acc Hacc)) as [Hs Hp].
      split; [exact Hs|]. rewrite Hp, insert_item_perm.
      apply (Permutation_middle acc l x). }
  apply (H []). constructor.
Qed.

Lemma report_rows_ok (float_repr : spec_float -> string) (items : all_metrics_t)
    (rows : list string) :
  report_rows float_repr items = (rows, None) ->
  Forall2 (fun item row => report_row float_repr (fst item) (snd item) = inr row) items rows.
Proof.
  revert rows. induction items as [|[name md] items IH]; intros rows; simpl.
  - intros [= <-]. constructor.
  - destruct (report_row float_repr name md) as [e|row] eqn:E; [discriminate|].
    destruct (report_rows float_repr items) as [rows' e'].
    intros [= <- ->]. constructor; [exact E | apply IH; reflexivity].
Qed.

(** The row of an absent record holds the placeholder in its three
    cells. *)
Lemma report_row_absent (float_repr : spec_float -> string) (db_name : string) :
  report_row float_repr db_name None
  = inr ("| " +:+ ljust 16 db_name
         +:+ " | N/A                          | N/A                     | N/A                   |"
         +:+ nl).
Proof. reflexivity. Qed.

(** C3 (fails on the code): for a present record with an absent field the
    renderer does not write the placeholder: the key is in the record
    with the value [None], the default of the lookup is not used, and
    formatting [None] raises, which ends the report after its header. *)
Theorem absent_field_breaks_report (float_repr : spec_float -> string) :
  let md := record_of_lines
              ["[UPDATE], Operations, 10"; "[UPDATE], AverageLatency(us), 5";
               "[READ], AverageLatency(us), 4"] in
  report_row float_repr "SQLite" md = inl TypeError
  /\ generate_markdown_report float_repr [("SQLite", md)] true plot_file
     = (report_header, Some TypeError).
Proof. split; vm_compute; reflexivity. Qed.

(** ** Marker lines *)

Lemma float_error (s : string) (e : exn) : float s = inl e -> e = ValueError.
Proof.
  unfold float. repeat case_match; congruence.
Qed.

Lemma startswith_update_shape (line : string) :
  startswith line "[UPDATE]" = true ->
  exists r, line = String "[" (String "U" (String "P" (String "D" (String "A" (String "T" (String "E" (String "]" r))))))).
Proof. intros H. apply prefix_app in H. exact H. Qed.

Lemma startswith_read_shape (line : string) :
  startswith line "[READ]" = true ->
  exists r, line = String "[" (String "R" (String "E" (String "A" (String "D" (String "]" r))))).
Proof. intros H. apply prefix_app in H. exact H. Qed.

(** A line that starts with an UPDATE or READ marker is not an OVERALL
    line. *)
Lemma marker_not_overall (line : string) :
  startswith line "[UPDATE]" = true \/ startswith line "[READ]" = true ->
  startswith line "[OVERALL]" = false.
Proof.
  intros [H|H];
    [apply startswith_update_shape in H | apply startswith_read_shape in H];
    destruct H as [r ->]; reflexivity.
Qed.

(** The first field of such a line starts with the marker too. *)
Lemma first_part_update (r : string) :
  fst (split_go ", " 0 (String "[" (String "U" (String "P" (String "D" (String "A" (String "T" (String "E" (String "]" r)))))))))
  = String "[" (String "U" (String "P" (String "D" (String "A" (String "T" (String "E" (String "]" (fst (split_go ", " 0 r))))))))).
Proof.
  repeat (rewrite split_go_cons;
          change (String.prefix ", " (String _ _)) with false; cbv iota).
  destruct (split_go ", " 0 r) as [p ps]. reflexivity.
Qed.

Lemma first_part_read (r : string) :
  fst (split_go ", " 0 (String "[" (String "R" (String "E" (String "A" (String "D" (String "]" r)))))))
  = String "[" (String "R" (String "E" (String "A" (String "D" (String "]" (fst (split_go ", " 0 r))))))).
Proof.
  repeat (rewrite split_go_cons;
          change (String.prefix ", " (String _ _)) with false; cbv iota).
  destruct (split_go ", " 0 r) as [p ps]. reflexivity.
Qed.

(** When the first field is not the bare marker, what [[1:-1]] leaves of
    it names no section. *)
Lemma sliced_not_section (line : string) :
  startswith line "[UPDATE]" = true \/ startswith line "[READ]" = true ->
  part 0 (split ", " line) <> "[UPDATE]" ->
  part 0 (split ", " line) <> "[READ]" ->
  let cs := slice_1_m1 (part 0 (split ", " line)) in
  cs <> "OVERALL" /\ cs <> "UPDATE" /\ cs <> "READ".
Proof.
  intros [H|H] Hu Hr; rewrite part0_split in *;
    [apply startswith_update_shape in H | apply startswith_read_shape in H];
    destruct H as [r ->];
    [rewrite first_part_update in * | rewrite first_part_read in *];
    destruct (fst (split_go ", " 0 r)) as [|c q]; try congruence;
    unfold slice_1_m1; cbn; repeat split; discriminate.
Qed.

Lemma lookup_not_section (m : gmap string (gmap string value)) (cs : string) :
  shaped m -> cs <> "OVERALL" -> cs <> "UPDATE" -> cs <> "READ" -> m !! cs = None.
Proof.
  intros [Hdom _] Ho Hu Hr. apply not_elem_of_dom. rewrite Hdom.
  apply not_elem_of_dom. unfold initial_metrics.
  rewrite !lookup_insert_ne by congruence. apply lookup_empty.
Qed.

Lemma lookup_op_section (m : gmap string (gmap string value)) (tag : string) :
  shaped m -> tag = "UPDATE" \/ tag = "READ" -> exists d, m !! tag = Some d.
Proof.
  intros [_ Hsec] [-> | ->].
  - destruct (Hsec "UPDATE" op_section) as (d & Hd & _); [reflexivity | eauto].
  - destruct (Hsec "READ" op_section) as (d & Hd & _); [reflexivity | eauto].
Qed.

(** A line that is no UPDATE or READ marker leaves the current section
    as it is. *)
Lemma process_line_keeps_section (st st' : pstate) (raw : string) :
  startswith (strip raw) "[UPDATE]" = false ->
  startswith (strip raw) "[READ]" = false ->
  process_line st raw = inr st' ->
  current_section st' = current_section st.
Proof.
  intros Hu Hr. unfold process_line, bind. rewrite Hu, Hr. simpl.
  repeat case_match; try discriminate; intros [= <-]; reflexivity.
Qed.

Lemma process_lines_no_marker (pre : list string) (st st' : pstate) :
  (forall l, In l pre ->
     startswith (strip l) "[UPDATE]" = false /\ startswith (strip l) "[READ]" = false) ->
  process_lines st pre = inr st' ->
  current_section st' = current_section st.
Proof.
  revert st. induction pre as [|l pre IH]; intros st Hpre; simpl.
  - intros [= <-]. reflexivity.
  - destruct (process_line st l) as [e|st1] eqn:E; simpl; [discriminate|].
    intros H. rewrite (IH st1); [| intros l' Hl'; apply Hpre; right; exact Hl' | exact H].
    destruct (Hpre l) as [Hu Hr]; [left; reflexivity|].
    eapply process_line_keeps_section; eassumption.
Qed.

(** Without a current section a histogram row is ignored. *)
Lemma process_line_row_no_section (st : pstate) (raw : string) :
  current_section st = None ->
  histogram_shaped (strip raw) = true ->
  process_line st raw = inr st.
Proof.
  intros Hc Hh. unfold process_line.
  destruct (histogram_not_marker _ Hh) as (-> & -> & ->). simpl.
  rewrite Hc. reflexivity.
Qed.

(** What a marker line does when its first field is the bare marker. *)
Lemma process_marker_line (st : pstate) (raw tag : string) :
  tag = "UPDATE" \/ tag = "READ" ->
  part 0 (split ", " (strip raw)) = "[" +:+ tag +:+ "]" ->
  process_line st raw =
  if (3 <=? length (split ", " (strip raw)))%nat then
    x <- float (part 2 (split ", " (strip raw))) ;;
    m1 <- setitem2 (st_metrics st) tag (part 1 (split ", " (strip raw))) (VFloat x) ;;
    inr (PState m1 (Some tag))
  else inr (PState (st_metrics st) (Some tag)).
Proof.
  intros Htag Hp0.
  assert (Hm : startswith (strip raw) "[UPDATE]" || startswith (strip raw) "[READ]" = true).
  { destruct (split_go_prefix ", " (strip raw)) as [r Hr].
    rewrite <- part0_split, Hp0 in Hr. rewrite Hr.
    destruct Htag as [-> | ->]; destruct r; reflexivity. }
  unfold process_line.
  rewrite marker_not_overall by (apply orb_true_iff; exact Hm).
  rewrite Hm, Hp0. destruct Htag as [-> | ->]; reflexivity.
Qed.

(** C6 (as amended): a line whose first field is the bare UPDATE or READ
    marker sets the current section to that tag; with fewer than three
    fields it stores nothing; with three fields or more, the third of
    which converts to a float, it stores that float under the label
    named by the second field in the record of that section; and a
    histogram-shaped line met before the first marker line is ignored. *)
Theorem marker_line_sets_section (pre : list string) (st : pstate) (raw tag : string) :
  process_lines initial_state pre = inr st ->
  tag = "UPDATE" \/ tag = "READ" ->
  part 0 (split ", " (strip raw)) = "[" +:+ tag +:+ "]" ->
  (exists d, st_metrics st !! tag = Some d
     /\ ((length (split ", " (strip raw)) < 3)%nat ->
         process_line st raw = inr (PState (st_metrics st) (Some tag)))
     /\ (forall x, (3 <= length (split ", " (strip raw)))%nat ->
         float (part 2 (split ", " (strip raw))) = inr x ->
         process_line st raw =
         inr (PState (<[tag := <[part 1 (split ", " (strip raw)) := VFloat x]> d]>
                        (st_metrics st))
                (Some tag))))
  /\ forall h,
       (forall l, In l pre ->
          startswith (strip l) "[UPDATE]" = false
          /\ startswith (strip l) "[READ]" = false) ->
       histogram_shaped (strip h) = true ->
       process_line st h = inr st.
Proof.
  intros Hpre Htag Hp0. split.
  - assert (Hs : shaped (st_metrics st)) by (apply reachable_shaped; exists pre; exact Hpre).
    destruct (lookup_op_section _ _ Hs Htag) as [d Hd]. exists d.
    split; [exact Hd|]. rewrite (process_marker_line st raw tag Htag Hp0). split.
    + intros Hlt. apply Nat.leb_gt in Hlt. rewrite Hlt. reflexivity.
    + intros x Hle Hx. apply Nat.leb_le in Hle. rewrite Hle, Hx. simpl.
      unfold setitem2, getitem, bind. rewrite Hd. reflexivity.
  - intros h Hno Hh. apply process_line_row_no_section; [|exact Hh].
    apply (process_lines_no_marker pre initial_state st Hno Hpre).
Qed.

Lemma marker_line_sets_section_witness :
  process_line initial_state "[UPDATE], Operations, 10"
  = inr (PState (<["UPDATE" := <["Operations" := VFloat (S754_finite false 5629499534213120 (-49))]>
                                 op_section]> initial_metrics)
           (Some "UPDATE")).
Proof.
  destruct (marker_line_sets_section [] initial_state "[UPDATE], Operations, 10" "UPDATE")
    as [(d & Hd & _ & Hstore) _].
  - reflexivity.
  - left. reflexivity.
  - reflexivity.
  - assert (Hd' : Some d = Some op_section)
      by (rewrite <- Hd; vm_compute; reflexivity).
    injection Hd' as ->. apply Hstore; [vm_compute; lia | vm_compute; reflexivity].
Defined.

(** C6 (as stated) fails: a line that starts with the marker followed by
    other characters sets the current section to what [[1:-1]] leaves of
    its first field, which is not the tag; and a third field that is no
    float stores nothing and raises. *)
Lemma marker_line_claim_fails :
  startswith (strip "[UPDATE]x") "[UPDATE]" = true
  /\ match process_line initial_state "[UPDATE]x" with
     | inr st' => current_section st'
     | inl _ => None
     end = Some "UPDATE]"
  /\ process_line initial_state "[UPDATE], Operations, n/a" = inl ValueError
  /\ ~ (forall st raw, startswith (strip raw) "[UPDATE]" = true ->
        exists st', process_line st raw = inr st' /\ current_section st' = Some "UPDATE").
Proof.
  split; [reflexivity|]. split; [vm_compute; reflexivity|].
  split; [vm_compute; reflexivity|].
  intros H. destruct (H initial_state "[UPDATE]x" eq_refl) as (st' & Hp & Hc).
  vm_compute in Hp. injection Hp as <-. discriminate.
Qed.

(** C10 (as amended): a line that starts with an UPDATE or READ marker,
    whose first field is not the bare marker and which has three fields
    or more, raises: the conversion of its third field fails, or else the
    lookup of the section does; the handler then reports the whole file
    absent, with the metrics gathered from the lines before it. *)
Theorem malformed_marker_line_absent (pre post : list string) (st : pstate) (raw : string) :
  process_lines initial_state pre = inr st ->
  startswith (strip raw) "[UPDATE]" = true \/ startswith (strip raw) "[READ]" = true ->
  part 0 (split ", " (strip raw)) <> "[UPDATE]" ->
  part 0 (split ", " (strip raw)) <> "[READ]" ->
  (3 <= length (split ", " (strip raw)))%nat ->
  (exists e, process_line st raw = inl e
     /\ (e = ValueError \/ e = KeyError (slice_1_m1 (part 0 (split ", " (strip raw)))))
     /\ (forall x, float (part 2 (split ", " (strip raw))) = inr x ->
         e = KeyError (slice_1_m1 (part 0 (split ", " (strip raw))))))
  /\ forall (fs : filesystem) (path : string) (re : option exn),
       fs path = inr (Opened (pre ++ raw :: post) re) ->
       exists e, parse_ycsb_output fs path = (None, [Warning_error_parsing path e]).
Proof.
  intros Hpre Hm Hu Hr Hlen.
  assert (Hs : shaped (st_metrics st)) by (apply reachable_shaped; exists pre; exact Hpre).
  destruct (sliced_not_section _ Hm Hu Hr) as (Hc1 & Hc2 & Hc3).
  pose proof (lookup_not_section _ _ Hs Hc1 Hc2 Hc3) as Hnone.
  assert (Hline : exists e, process_line st raw = inl e
     /\ (e = ValueError \/ e = KeyError (slice_1_m1 (part 0 (split ", " (strip raw)))))
     /\ (forall x, float (part 2 (split ", " (strip raw))) = inr x ->
         e = KeyError (slice_1_m1 (part 0 (split ", " (strip raw)))))).
  { unfold process_line. rewrite (marker_not_overall _ Hm).
    replace (startswith (strip raw) "[UPDATE]" || startswith (strip raw) "[READ]")
      with true by (symmetry; apply orb_true_iff; exact Hm).
    apply Nat.leb_le in Hlen. rewrite Hlen.
    destruct (float (part 2 (split ", " (strip raw)))) as [e|x] eqn:Hf; simpl.
    - apply float_error in Hf. subst e. exists ValueError.
      split; [reflexivity|]. split; [left; reflexivity | discriminate].
    - unfold setitem2, getitem, bind. rewrite Hnone. eexists.
      split; [reflexivity|]. split; [right; reflexivity | reflexivity]. }
  split; [exact Hline|].
  destruct Hline as (e & He & Hkind & _).
  intros fs path re Hfs. exists e.
  unfold parse_ycsb_output, parse_body. rewrite Hfs. simpl.
  rewrite process_lines_app, Hpre. simpl. rewrite He. simpl.
  destruct Hkind as [-> | ->]; reflexivity.
Qed.

Lemma malformed_marker_line_absent_witness :
  parse_ycsb_output
    (single_file "r.txt" ["[UPDATE], Operations, 7"; "[UPDATE] extra, label, 1.0"; "1,5"])
    "r.txt"
  = (None, [Warning_error_parsing "r.txt" (KeyError "UPDATE] extr")]).
Proof.
  destruct (process_lines initial_state ["[UPDATE], Operations, 7"]) as [e0|st] eqn:Hpre;
    [vm_compute in Hpre; discriminate|].
  destruct (malformed_marker_line_absent ["[UPDATE], Operations, 7"] ["1,5"] st
              "[UPDATE] extra, label, 1.0" Hpre) as [(e & He & _ & Hkey) Hfile].
  - left. reflexivity.
  - vm_compute. discriminate.
  - vm_compute. discriminate.
  - vm_compute. lia.
  - destruct (Hfile (single_file "r.txt"
        ["[UPDATE], Operations, 7"; "[UPDATE] extra, label, 1.0"; "1,5"]) "r.txt" None eq_refl)
      as [e' He'].
    rewrite He'. vm_compute in He'. injection He' as <-. reflexivity.
Defined.

(** C10 (as stated) fails: with fewer than three fields no lookup is made;
    the line only sets the current section to a name that is no section,
    and the file keeps the metrics of its other lines. *)
Lemma malformed_marker_short_line_kept :
  startswith (strip "[UPDATE] extra") "[UPDATE]" = true
  /\ part 0 (split ", " (strip "[UPDATE] extra")) <> "[UPDATE]"
  /\ match fst (parse_ycsb_output
                  (single_file "r.txt" ["[UPDATE], Operations, 7"; "[UPDATE] extra"; "1,5"])
                  "r.txt") with
     | Some m => update_slot m "Operations"
     | None => None
     end = Some (VFloat (S754_finite false 7881299347898368 (-50))).
Proof.
  split; [reflexivity|]. split; [vm_compute; discriminate|]. vm_compute. reflexivity.
Qed.

(** * Further properties of the parser *)

(** ** Rows of a histogram *)

(** X1: inside an UPDATE or READ section whose distribution is a list, a
    histogram-shaped line of two integers is appended at the end of that
    list; the other sections, the other labels and the current section
    are left as they were. *)
Theorem good_row_appended (st : pstate) (raw tag : string) (d : gmap string value)
    (l : list (Z * Z)) (p : Z * Z) :
  current_section st = Some tag ->
  tag = "UPDATE" \/ tag = "READ" ->
  histogram_shaped (strip raw) = true ->
  unpack_int_pair (split "," (strip raw)) = inr p ->
  st_metrics st !! tag = Some d ->
  d !! "LatencyDistribution" = Some (VList l) ->
  process_line st raw
  = inr (PState (<[tag := <["LatencyDistribution" := VList (l ++ [p])]> d]> (st_metrics st))
           (Some tag)).
Proof.
  intros Hc Htag Hh Hu Hd Hl. unfold process_line.
  destruct (histogram_not_marker _ Hh) as (-> & -> & ->). simpl.
  rewrite Hh, Hc.
  replace (str_truthy (Some tag)) with true by (destruct Htag as [-> | ->]; reflexivity).
  replace (is_op_section (Some tag)) with true by (destruct Htag as [-> | ->]; reflexivity).
  simpl. rewrite Hu. simpl.
  unfold append_distribution, getitem, bind. rewrite Hd, Hl. reflexivity.
Qed.

Lemma good_row_appended_witness :
  process_lines initial_state ["[UPDATE]"; "1,5"] = inr state_one_row
  /\ process_line state_one_row "2,3"
     = inr (PState (<["UPDATE" := <["LatencyDistribution" := VList [(1, 5); (2, 3)]]>
                       (<["LatencyDistribution" := VList [(1, 5)]]> op_section)]>
                      (st_metrics state_one_row))
              (Some "UPDATE")).
Proof.
  split; [reflexivity|].
  apply (good_row_appended state_one_row "2,3" "UPDATE"
           (<["LatencyDistribution" := VList [(1, 5)]]> op_section) [(1, 5)] (2, 3)).
  - reflexivity.
  - left. reflexivity.
  - reflexivity.
  - reflexivity.
  - reflexivity.
  - reflexivity.
Defined.

(** X2: a line that is no marker line, and that is not histogram-shaped
    or is met while the current section is neither UPDATE nor READ,
    changes nothing: the file parses to what it would without the line. *)
Theorem other_line_ignored (pre post : list string) (st : pstate) (raw : string) :
  process_lines initial_state pre = inr st ->
  startswith (strip raw) "[OVERALL]" = false ->
  startswith (strip raw) "[UPDATE]" = false ->
  startswith (strip raw) "[READ]" = false ->
  histogram_shaped (strip raw) = false \/ is_op_section (current_section st) = false ->
  process_line st raw = inr st
  /\ forall (fs fs' : filesystem) (path : string) (re : option exn),
       fs path = inr (Opened (pre ++ raw :: post) re) ->
       fs' path = inr (Opened (pre ++ post) re) ->
       parse_ycsb_output fs path = parse_ycsb_output fs' path.
Proof.
  intros Hpre Ho Hu Hr Hwhy.
  assert (Hline : process_line st raw = inr st).
  { unfold process_line. rewrite Ho, Hu, Hr. simpl.
    destruct Hwhy as [-> | ->].
    - rewrite andb_false_r. reflexivity.
    - destruct (str_truthy _ && histogram_shaped _); reflexivity. }
  split; [exact Hline|].
  intros fs fs' path re Hfs Hfs'.
  unfold parse_ycsb_output, parse_body. rewrite Hfs, Hfs'. simpl.
  rewrite !process_lines_app, Hpre. simpl. rewrite Hline. reflexivity.
Qed.

Lemma other_line_ignored_witness :
  process_line state_one_row "# a comment, with commas" = inr state_one_row.
Proof.
  refine (proj1 (other_line_ignored ["[UPDATE]"; "1,5"] [] state_one_row
                   "# a comment, with commas" _ _ _ _ _)).
  - reflexivity.
  - reflexivity.
  - reflexivity.
  - reflexivity.
  - left. reflexivity.
Defined.

(** X3: when a metric row named [LatencyDistribution] has put a float in
    the place of the list, the next histogram row of two integers raises
    [AttributeError], which the inner handler does not catch: the whole
    file is reported absent. *)
Theorem row_after_overwritten_distribution (pre post : list string) (st : pstate)
    (raw tag : string) (d : gmap string value) (x : spec_float) (p : Z * Z) :
  process_lines initial_state pre = inr st ->
  current_section st = Some tag ->
  tag = "UPDATE" \/ tag = "READ" ->
  histogram_shaped (strip raw) = true ->
  unpack_int_pair (split "," (strip raw)) = inr p ->
  st_metrics st !! tag = Some d ->
  d !! "LatencyDistribution" = Some (VFloat x) ->
  process_line st raw = inl AttributeError
  /\ forall (fs : filesystem) (path : string) (re : option exn),
       fs path = inr (Opened (pre ++ raw :: post) re) ->
       parse_ycsb_output fs path = (None, [Warning_error_parsing path AttributeError]).
Proof.
  intros Hpre Hc Htag Hh Hu Hd Hl.
  assert (Hline : process_line st raw = inl AttributeError).
  { unfold process_line.
    destruct (histogram_not_marker _ Hh) as (-> & -> & ->). simpl.
    rewrite Hh, Hc.
    replace (str_truthy (Some tag)) with true by (destruct Htag as [-> | ->]; reflexivity).
    replace (is_op_section (Some tag)) with true by (destruct Htag as [-> | ->]; reflexivity).
    simpl. rewrite Hu. simpl.
    unfold append_distribution, getitem, bind. rewrite Hd, Hl. reflexivity. }
  split; [exact Hline|].
  intros fs path re Hfs.
  unfold parse_ycsb_output, parse_body. rewrite Hfs. simpl.
  rewrite process_lines_app, Hpre. simpl. rewrite Hline. reflexivity.
Qed.

Lemma row_after_overwritten_distribution_witness :
  parse_ycsb_output
    (single_file "r.txt" ["[UPDATE], LatencyDistribution, 2.0"; "1,5"]) "r.txt"
  = (None, [Warning_error_parsing "r.txt" AttributeError]).
Proof.
  refine (proj2 (row_after_overwritten_distribution
                   ["[UPDATE], LatencyDistribution, 2.0"] [] state_overwritten "1,5" "UPDATE"
                   (<["LatencyDistribution" := VFloat (S754_finite false 4503599627370496 (-51))]>
                      op_section)
                   (S754_finite false 4503599627370496 (-51)) (1, 5) _ _ _ _ _ _ _)
            (single_file "r.txt" ["[UPDATE], LatencyDistribution, 2.0"; "1,5"])
            "r.txt" None _).
  - reflexivity.
  - reflexivity.
  - left. reflexivity.
  - reflexivity.
  - reflexivity.
  - reflexivity.
  - reflexivity.
  - reflexivity.
Defined.

(** ** Invariants of the record *)

Lemma initial_lists_only : lists_only_in_distribution initial_metrics.
Proof.
  intros sec d k l Hd Hk. unfold initial_metrics in Hd.
  repeat (apply lookup_insert_Some in Hd; destruct Hd as [[<- <-]|[_ Hd]]);
    try (rewrite lookup_empty in Hd; discriminate).
  - exfalso.
    repeat (apply lookup_insert_Some in Hk; destruct Hk as [[_ Hk]|[_ Hk]];
            [discriminate|]).
    rewrite lookup_empty in Hk. discriminate.
  - split; [|left; reflexivity]. unfold op_section in Hk.
    repeat (apply lookup_insert_Some in Hk; destruct Hk as [[Hk1 Hk]|[_ Hk]];
            [first [discriminate | symmetry; exact Hk1]|]).
    rewrite lookup_empty in Hk. discriminate.
  - split; [|right; reflexivity]. unfold op_section in Hk.
    repeat (apply lookup_insert_Some in Hk; destruct Hk as [[Hk1 Hk]|[_ Hk]];
            [first [discriminate | symmetry; exact Hk1]|]).
    rewrite lookup_empty in Hk. discriminate.
Qed.

Lemma setitem2_lists_only (m m' : gmap string (gmap string value)) (sec key : string)
    (x : spec_float) :
  lists_only_in_distribution m -> setitem2 m sec key (VFloat x) = inr m' ->
  lists_only_in_distribution m'.
Proof.
  intros Hm. unfold setitem2, getitem, bind.
  destruct (m !! sec) as [d|] eqn:Hd; [|discriminate].
  intros [= <-] sec' d' k l Hd' Hk.
  apply lookup_insert_Some in Hd'. destruct Hd' as [[<- <-]|[_ Hd']].
  - apply lookup_insert_Some in Hk. destruct Hk as [[_ Hk]|[_ Hk]]; [discriminate|].
    eapply Hm; eassumption.
  - eapply Hm; eassumption.
Qed.

Lemma append_distribution_lists_only (m m' : gmap string (gmap string value)) (sec : string)
    (p : Z * Z) :
  lists_only_in_distribution m -> append_distribution m sec p = inr m' ->
  lists_only_in_distribution m'.
Proof.
  intros Hm. unfold append_distribution, getitem, bind.
  destruct (m !! sec) as [d|] eqn:Hd; [|discriminate].
  destruct (d !! "LatencyDistribution") as [[| |l0]|] eqn:Hl0; try discriminate.
  intros [= <-] sec' d' k l Hd' Hk.
  apply lookup_insert_Some in Hd'. destruct Hd' as [[<- <-]|[_ Hd']].
  - apply lookup_insert_Some in Hk. destruct Hk as [[<- _]|[_ Hk]].
    + split; [reflexivity|]. apply (Hm sec d "LatencyDistribution" l0 Hd Hl0).
    + eapply Hm; eassumption.
  - eapply Hm; eassumption.
Qed.

Lemma process_line_lists_only (st st' : pstate) (raw : string) :
  lists_only_in_distribution (st_metrics st) -> process_line st raw = inr st' ->
  lists_only_in_distribution (st_metrics st').
Proof.
  intros Hm. unfold process_line, bind.
  repeat case_match; try discriminate; intros [= <-]; simpl; try assumption;
    repeat match goal with
    | H : setitem2 _ _ _ (VFloat _) = inr _ |- _ =>
        apply setitem2_lists_only in H; [|assumption]
    | H : append_distribution _ _ _ = inr _ |- _ =>
        apply append_distribution_lists_only in H; [|assumption]
    end; assumption.
Qed.

Lemma process_lines_lists_only (ls : list string) (st st' : pstate) :
  lists_only_in_distribution (st_metrics st) -> process_lines st ls = inr st' ->
  lists_only_in_distribution (st_metrics st').
Proof.
  revert st. induction ls as [|l ls IH]; intros st Hm; simpl.
  - intros [= <-]. exact Hm.
  - destruct (process_line st l) as [e|st1] eqn:E; simpl; [discriminate|].
    apply IH. eapply process_line_lists_only; eauto.
Qed.

Lemma parsed_state (fs : filesystem) (filepath : string)
    (m : gmap string (gmap string value)) :
  fst (parse_ycsb_output fs filepath) = Some m ->
  exists f st, fs filepath = inr f
    /\ process_lines initial_state (file_lines f) = inr st
    /\ read_error f = None /\ st_metrics st = m.
Proof.
  unfold parse_ycsb_output. destruct (parse_body fs filepath) as [e|st] eqn:Hb;
    [destruct e; discriminate|].
  simpl. intros [= <-]. unfold parse_body, bind in Hb.
  destruct (fs filepath) as [|f]; [discriminate|].
  destruct (process_lines initial_state (file_lines f)) as [|st1] eqn:Hl; [discriminate|].
  destruct (read_error f) eqn:Hre; [discriminate|]. injection Hb as <-.
  exists f, st1. auto.
Qed.

(** X4: a record that the parser returns has exactly the three sections
    OVERALL, UPDATE and READ, and each section has all the labels it
    started with: lines add labels to a section and remove none. *)
Theorem parsed_record_shaped (fs : filesystem) (filepath : string)
    (m : gmap string (gmap string value)) :
  fst (parse_ycsb_output fs filepath) = Some m ->
  (forall sec, is_Some (m !! sec) <-> sec = "OVERALL" \/ sec = "UPDATE" \/ sec = "READ")
  /\ forall sec d0 k, initial_metrics !! sec = Some d0 -> is_Some (d0 !! k) ->
       exists d, m !! sec = Some d /\ is_Some (d !! k).
Proof.
  intros H. destruct (parsed_state _ _ _ H) as (f & st & _ & Hl & _ & <-).
  assert (Hs : shaped (st_metrics st))
    by (apply reachable_shaped; exists (file_lines f); exact Hl).
  destruct Hs as [Hdom Hsec]. split.
  - intros sec. rewrite <- elem_of_dom, Hdom, elem_of_dom. unfold initial_metrics. split.
    + intros [d Hd].
      repeat (apply lookup_insert_Some in Hd; destruct Hd as [[<- _]|[_ Hd]]; [tauto|]).
      rewrite lookup_empty in Hd. discriminate.
    + intros [-> | [-> | ->]]; eexists; reflexivity.
  - intros sec d0 k H0 Hk. destruct (Hsec sec d0 H0) as (d & Hd & Hsub).
    exists d. split; [exact Hd|]. apply elem_of_dom, Hsub, elem_of_dom, Hk.
Qed.

Lemma parsed_record_shaped_witness :
  fst (parse_ycsb_output
         (single_file "r.txt" ["[UPDATE], Foo, 1"; "1,5"; "# note"; "[READ], Operations, 4"])
         "r.txt") = Some sample_record
  /\ (is_Some (sample_record !! "Foo") <-> "Foo" = "OVERALL" \/ "Foo" = "UPDATE" \/ "Foo" = "READ")
  /\ exists d, sample_record !! "UPDATE" = Some d /\ is_Some (d !! "Return=OK").
Proof.
  assert (H : fst (parse_ycsb_output
                     (single_file "r.txt"
                        ["[UPDATE], Foo, 1"; "1,5"; "# note"; "[READ], Operations, 4"])
                     "r.txt") = Some sample_record) by reflexivity.
  destruct (parsed_record_shaped _ _ _ H) as [Hsec Hk].
  split; [exact H|]. split; [apply Hsec|].
  apply (Hk "UPDATE" op_section "Return=OK"); [reflexivity | eexists; reflexivity].
Defined.

(** X5: in a record that the parser returns, a list is held only by the
    [LatencyDistribution] slot of the UPDATE or READ section; every other
    slot holds [None] or a float. *)
Theorem parsed_record_lists_only (fs : filesystem) (filepath : string)
    (m : gmap string (gmap string value)) :
  fst (parse_ycsb_output fs filepath) = Some m ->
  lists_only_in_distribution m.
Proof.
  intros H. destruct (parsed_state _ _ _ H) as (f & st & _ & Hl & _ & <-).
  exact (process_lines_lists_only (file_lines f) initial_state st initial_lists_only Hl).
Qed.

Lemma parsed_record_lists_only_witness :
  section_slot sample_record "UPDATE" "LatencyDistribution" = Some (VList [(1, 5)])
  /\ lists_only_in_distribution sample_record.
Proof.
  split; [reflexivity|].
  apply (parsed_record_lists_only
           (single_file "r.txt" ["[UPDATE], Foo, 1"; "1,5"; "# note"; "[READ], Operations, 4"])
           "r.txt").
  reflexivity.
Defined.

(** ** Metric rows *)

(** X6: of two consecutive metric rows of one section with the same
    label, the second wins: the pair leaves the state that the second row
    alone would leave. *)
Theorem last_occurrence_wins (pre : list string) (st : pstate) (raw1 raw2 tag : string)
    (x1 x2 : spec_float) :
  process_lines initial_state pre = inr st ->
  tag = "UPDATE" \/ tag = "READ" ->
  part 0 (split ", " (strip raw1)) = "[" +:+ tag +:+ "]" ->
  part 0 (split ", " (strip raw2)) = "[" +:+ tag +:+ "]" ->
  (3 <= length (split ", " (strip raw1)))%nat ->
  (3 <= length (split ", " (strip raw2)))%nat ->
  part 1 (split ", " (strip raw1)) = part 1 (split ", " (strip raw2)) ->
  float (part 2 (split ", " (strip raw1))) = inr x1 ->
  float (part 2 (split ", " (strip raw2))) = inr x2 ->
  process_lines st [raw1; raw2] = process_lines st [raw2].
Proof.
  intros Hpre Htag Hp1 Hp2 Hl1 Hl2 Hk Hx1 Hx2.
  assert (Hs : shaped (st_metrics st)) by (apply reachable_shaped; exists pre; exact Hpre).
  destruct (lookup_op_section _ _ Hs Htag) as [d Hd].
  apply Nat.leb_le in Hl1, Hl2. simpl.
  rewrite (process_marker_line st raw1 tag Htag Hp1), Hl1, Hx1. simpl.
  unfold setitem2 at 1, getitem, bind. rewrite Hd. simpl.
  rewrite !(process_marker_line _ raw2 tag Htag Hp2), Hl2, Hx2. simpl.
  unfold setitem2, getitem, bind. simpl.
  rewrite lookup_insert_eq, Hd, Hk, !insert_insert_eq. reflexivity.
Qed.

Lemma last_occurrence_wins_witness :
  process_lines initial_state ["[READ], Operations, 3"; "[READ], Operations, 4"]
  = process_lines initial_state ["[READ], Operations, 4"].
Proof.
  refine (last_occurrence_wins [] initial_state "[READ], Operations, 3"
            "[READ], Operations, 4" "READ"
            (S754_finite false 6755399441055744 (-51))
            (S754_finite false 4503599627370496 (-50)) _ _ _ _ _ _ _ _ _).
  - reflexivity.
  - right. reflexivity.
  - reflexivity.
  - reflexivity.
  - vm_compute. lia.
  - vm_compute. lia.
  - reflexivity.
  - reflexivity.
  - reflexivity.
Defined.

(** ** OVERALL lines *)

Lemma process_overall_line (st : pstate) (raw : string) :
  startswith (strip raw) "[OVERALL]" = true ->
  process_line st raw =
  if (length (split ", " (strip raw)) =? 3)%nat then
    x <- float (part 1 (split ", " (strip raw))) ;;
    m1 <- setitem2 (st_metrics st) "OVERALL" "RunTime(ms)" (VFloat x) ;;
    y <- float (part 2 (split ", " (strip raw))) ;;
    m2 <- setitem2 m1 "OVERALL" "Throughput(ops/sec)" (VFloat y) ;;
    inr (PState m2 (current_section st))
  else inr st.
Proof. intros H. unfold process_line. rewrite H. reflexivity. Qed.

(** X7: a line that starts with the OVERALL marker and does not split
    into exactly three fields changes nothing; with exactly three fields
    that both convert to floats it stores the second as the run time and
    the third as the throughput, and keeps the current section. *)
Theorem overall_line_stores (pre : list string) (st : pstate) (raw : string) :
  process_lines initial_state pre = inr st ->
  startswith (strip raw) "[OVERALL]" = true ->
  (length (split ", " (strip raw)) <> 3%nat -> process_line st raw = inr st)
  /\ forall x y, length (split ", " (strip raw)) = 3%nat ->
       float (part 1 (split ", " (strip raw))) = inr x ->
       float (part 2 (split ", " (strip raw))) = inr y ->
       exists d, st_metrics st !! "OVERALL" = Some d
         /\ process_line st raw
            = inr (PState (<["OVERALL" := <["Throughput(ops/sec)" := VFloat y]>
                                           (<["RunTime(ms)" := VFloat x]> d)]>
                             (st_metrics st))
                     (current_section st)).
Proof.
  intros Hpre Ho. rewrite (process_overall_line st raw Ho). split.
  - intros Hne. apply Nat.eqb_neq in Hne. rewrite Hne. reflexivity.
  - intros x y Hlen Hx Hy.
    assert (Hs : shaped (st_metrics st)) by (apply reachable_shaped; exists pre; exact Hpre).
    destruct Hs as [_ Hsec].
    destruct (Hsec "OVERALL" _ eq_refl) as (d & Hd & _).
    exists d. split; [exact Hd|].
    apply Nat.eqb_eq in Hlen. rewrite Hlen, Hx. simpl.
    unfold setitem2 at 1, getitem, bind. rewrite Hd. simpl. rewrite Hy. simpl.
    unfold setitem2, getitem, bind. rewrite lookup_insert_eq, insert_insert_eq.
    reflexivity.
Qed.

Lemma overall_line_stores_witness :
  process_line state_one_row "[OVERALL], 12345, 99.9"
  = inr (PState (<["OVERALL" :=
                     <["Throughput(ops/sec)" := VFloat (S754_finite false 7029837543348634 (-46))]>
                       (<["RunTime(ms)" := VFloat (S754_finite false 6786735522447360 (-39))]>
                          (<["RunTime(ms)" := VNone]> (<["Throughput(ops/sec)" := VNone]> ∅)))]>
                   (st_metrics state_one_row))
           (Some "UPDATE")).
Proof.
  destruct (overall_line_stores ["[UPDATE]"; "1,5"] state_one_row "[OVERALL], 12345, 99.9")
    as [_ H].
  - reflexivity.
  - reflexivity.
  - destruct (H (S754_finite false 6786735522447360 (-39))
                (S754_finite false 7029837543348634 (-46))) as (d & Hd & Hline).
    + reflexivity.
    + reflexivity.
    + reflexivity.
    + assert (Hd' : Some d = Some (<["RunTime(ms)" := VNone]> (<["Throughput(ops/sec)" := VNone]> ∅)))
        by (rewrite <- Hd; reflexivity).
      injection Hd' as ->. exact Hline.
Defined.

(** X8: a line that starts with the OVERALL marker and splits into
    exactly three fields, one of the last two of which is no float,
    raises [ValueError]: the whole file is reported absent, whatever its
    other lines hold. *)
Theorem overall_line_not_numeric_absent (pre post : list string) (st : pstate)
    (raw : string) :
  process_lines initial_state pre = inr st ->
  startswith (strip raw) "[OVERALL]" = true ->
  length (split ", " (strip raw)) = 3%nat ->
  (exists e, float (part 1 (split ", " (strip raw))) = inl e)
  \/ (exists e, float (part 2 (split ", " (strip raw))) = inl e) ->
  process_line st raw = inl ValueError
  /\ forall (fs : filesystem) (path : string) (re : option exn),
       fs path = inr (Opened (pre ++ raw :: post) re) ->
       parse_ycsb_output fs path = (None, [Warning_error_parsing path ValueError]).
Proof.
  intros Hpre Ho Hlen Hbad.
  assert (Hline : process_line st raw = inl ValueError).
  { rewrite (process_overall_line st raw Ho). apply Nat.eqb_eq in Hlen. rewrite Hlen.
    assert (Hs : shaped (st_metrics st)) by (apply reachable_shaped; exists pre; exact Hpre).
    destruct Hs as [_ Hsec]. destruct (Hsec "OVERALL" _ eq_refl) as (d & Hd & _).
    destruct (float (part 1 (split ", " (strip raw)))) as [e1|x] eqn:H1; simpl.
    - apply float_error in H1. subst e1. reflexivity.
    - destruct Hbad as [[e He]|[e He]]; [discriminate|].
      unfold setitem2 at 1, getitem, bind. rewrite Hd. simpl. rewrite He. simpl.
      apply float_error in He. subst e. reflexivity. }
  split; [exact Hline|].
  intros fs path re Hfs.
  unfold parse_ycsb_output, parse_body. rewrite Hfs. simpl.
  rewrite process_lines_app, Hpre. simpl. rewrite Hline. reflexivity.
Qed.

Lemma overall_line_not_numeric_absent_witness :
  parse_ycsb_output
    (single_file "r.txt" ["[UPDATE]"; "1,5"; "[OVERALL], Throughput(ops/sec), 99.9"; "2,3"])
    "r.txt"
  = (None, [Warning_error_parsing "r.txt" ValueError]).
Proof.
  refine (proj2 (overall_line_not_numeric_absent ["[UPDATE]"; "1,5"] ["2,3"] state_one_row
                   "[OVERALL], Throughput(ops/sec), 99.9" _ _ _ _)
            (single_file "r.txt"
               ["[UPDATE]"; "1,5"; "[OVERALL], Throughput(ops/sec), 99.9"; "2,3"])
            "r.txt" None _).
  - reflexivity.
  - reflexivity.
  - reflexivity.
  - left. exists ValueError. reflexivity.
  - reflexivity.
Defined.

(** ** The current section *)

Lemma marker_section (st st' : pstate) (raw : string) :
  startswith (strip raw) "[UPDATE]" = true \/ startswith (strip raw) "[READ]" = true ->
  process_line st raw = inr st' ->
  current_section st' = Some (slice_1_m1 (part 0 (split ", " (strip raw)))).
Proof.
  intros Hm. unfold process_line, bind. rewrite (marker_not_overall _ Hm).
  replace (startswith (strip raw) "[UPDATE]" || startswith (strip raw) "[READ]")
    with true by (symmetry; apply orb_true_iff; exact Hm).
  repeat case_match; try discriminate; intros [= <-]; reflexivity.
Qed.

Lemma marker_slice_nonempty (line : string) :
  startswith line "[UPDATE]" = true \/ startswith line "[READ]" = true ->
  slice_1_m1 (part 0 (split ", " line)) <> EmptyString.
Proof.
  intros [H|H]; rewrite part0_split;
    [apply startswith_update_shape in H | apply startswith_read_shape in H];
    destruct H as [r ->];
    [rewrite first_part_update | rewrite first_part_read];
    unfold slice_1_m1; cbn; discriminate.
Qed.

(** X9: the current section is [None] until the first line that starts
    with an UPDATE or READ marker, and it is never the empty string, so
    the test of line 34 on it tells whether such a line has been read. *)
Theorem current_section_invariant (pre : list string) (st : pstate) :
  process_lines initial_state pre = inr st ->
  current_section st <> Some EmptyString
  /\ ((forall l, In l pre ->
         startswith (strip l) "[UPDATE]" = false /\ startswith (strip l) "[READ]" = false) ->
      current_section st = None)
  /\ (current_section st = None ->
      forall l, In l pre ->
        startswith (strip l) "[UPDATE]" = false /\ startswith (strip l) "[READ]" = false).
Proof.
  intros Hpre. split; [|split].
  - assert (H : forall ls s0 s1, current_section s0 <> Some EmptyString ->
              process_lines s0 ls = inr s1 -> current_section s1 <> Some EmptyString).
    { induction ls as [|l ls IH]; intros s0 s1 H0; simpl.
      - intros [= <-]. exact H0.
      - destruct (process_line s0 l) as [e|s2] eqn:E; simpl; [discriminate|].
        apply IH.
        destruct (startswith (strip l) "[UPDATE]") eqn:Hu.
        + rewrite (marker_section s0 s2 l (or_introl Hu) E).
          intros [= Hs]. exact (marker_slice_nonempty _ (or_introl Hu) Hs).
        + destruct (startswith (strip l) "[READ]") eqn:Hr.
          * rewrite (marker_section s0 s2 l (or_intror Hr) E).
            intros [= Hs]. exact (marker_slice_nonempty _ (or_intror Hr) Hs).
          * rewrite (process_line_keeps_section s0 s2 l Hu Hr E). exact H0. }
    apply (H pre initial_state st); [discriminate | exact Hpre].
  - intros Hno. apply (process_lines_no_marker pre initial_state st Hno Hpre).
  - assert (H : forall ls s0 s1, process_lines s0 ls = inr s1 -> current_section s1 = None ->
              forall l, In l ls ->
                startswith (strip l) "[UPDATE]" = false
                /\ startswith (strip l) "[READ]" = false).
    { induction ls as [|l ls IH]; intros s0 s1; simpl; [intros _ _ l0 []|].
      destruct (process_line s0 l) as [e|s2] eqn:E; simpl; [discriminate|].
      intros Hls Hnone l0 [<- | Hin]; [|exact (IH s2 s1 Hls Hnone l0 Hin)].
      assert (Hrest : forall l', In l' ls ->
                startswith (strip l') "[UPDATE]" = false
                /\ startswith (strip l') "[READ]" = false)
        by (intros l' Hl'; exact (IH s2 s1 Hls Hnone l' Hl')).
      pose proof (process_lines_no_marker ls s2 s1 Hrest Hls) as Hsame.
      rewrite Hnone in Hsame.
      destruct (startswith (strip l) "[UPDATE]") eqn:Hu.
      - rewrite (marker_section s0 s2 l (or_introl Hu) E) in Hsame. discriminate.
      - destruct (startswith (strip l) "[READ]") eqn:Hr; [|auto].
        rewrite (marker_section s0 s2 l (or_intror Hr) E) in Hsame. discriminate. }
    intros Hnone. exact (H pre initial_state st Hpre Hnone).
Qed.

Lemma current_section_invariant_witness :
  current_section state_one_row <> Some EmptyString.
Proof.
  refine (proj1 (current_section_invariant ["[UPDATE]"; "1,5"] state_one_row _)).
  reflexivity.
Defined.

(** * Further properties of the expansion and of the renderers *)

Lemma expand_loop_app (can_hold : Z -> bool) (d1 d2 : list (Z * Z)) (acc : list Z) :
  expand_loop can_hold acc (d1 ++ d2)
  = (acc' <- expand_loop can_hold acc d1 ;; expand_loop can_hold acc' d2).
Proof.
  revert acc. induction d1 as [|[v c] d1 IH]; intros acc; simpl; [reflexivity|].
  destruct (list_repeat can_hold v c) as [e|new]; simpl; [reflexivity|].
  destruct (list_extend can_hold acc new) as [e|acc']; simpl; [reflexivity | apply IH].
Qed.

(** X10: when the expansion of two distributions put end to end returns,
    the expansion of the first one returns too and the result is its
    result followed by the repetitions of the second; and a value is in
    the result exactly when some row gives it a positive count. *)
Theorem get_latency_values_app_mem (can_hold : Z -> bool) (d1 d2 : list (Z * Z))
    (r : list Z) (v : Z) :
  get_latency_values can_hold (d1 ++ d2) = inr r ->
  (exists r1, get_latency_values can_hold d1 = inr r1
              /\ r = r1 ++ flat_map expand_pair d2)
  /\ (In v r <-> exists c, In (v, c) (d1 ++ d2) /\ 0 < c).
Proof.
  intros Hr. split.
  - unfold get_latency_values in *. rewrite expand_loop_app in Hr.
    destruct (expand_loop can_hold [] d1) as [e|r1]; simpl in Hr; [discriminate|].
    exists r1. split; [reflexivity|]. apply expand_loop_inr in Hr. exact Hr.
  - apply get_latency_values_flat in Hr. subst r.
    rewrite in_flat_map. split.
    + intros ([v' c] & Hin & Hrep). unfold expand_pair in Hrep. simpl in Hrep.
      pose proof (repeat_spec _ _ _ Hrep) as ->.
      exists c. split; [exact Hin|].
      destruct (Z.to_nat c) eqn:E; [contradiction | lia].
    + intros (c & Hin & Hc). exists (v, c). split; [exact Hin|].
      unfold expand_pair. simpl. destruct (Z.to_nat c) eqn:E; [lia|]. left. reflexivity.
Qed.

Lemma get_latency_values_app_mem_witness :
  (exists r1, get_latency_values (fun n => n <=? 8) [(1, 5)] = inr r1
              /\ [1; 1; 1; 1; 1; 2; 2; 2] = r1 ++ flat_map expand_pair [(7, -4); (2, 3)])
  /\ (In 7 [1; 1; 1; 1; 1; 2; 2; 2]
      <-> exists c, In (7, c) ([(1, 5)] ++ [(7, -4); (2, 3)]) /\ 0 < c).
Proof.
  apply (get_latency_values_app_mem (fun n => n <=? 8) [(1, 5)] [(7, -4); (2, 3)]).
  reflexivity.
Defined.

(** ** The groups of the plot *)

Lemma plot_entry_nonempty (can_hold : Z -> bool) (md : option (gmap string (gmap string value)))
    (lat : list Z) :
  plot_entry can_hold md = inr (Some lat) -> lat <> [].
Proof.
  unfold plot_entry, bind. repeat case_match; try discriminate; intros [= <-]; discriminate.
Qed.

Lemma plot_loop_inv (can_hold : Z -> bool) (items : all_metrics_t)
    (labels labels' : list string)
    (data data' : list (list Z)) :
  plot_loop can_hold items labels data = inr (labels', data') ->
  exists ls ds, labels' = labels ++ ls /\ data' = data ++ ds
    /\ length ls = length ds
    /\ sublist ls (map fst items)
    /\ Forall (fun g => g <> []) ds.
Proof.
  revert labels data. induction items as [|[k md] items IH]; intros labels data; simpl.
  - intros [= <- <-]. exists [], []. rewrite !app_nil_r. repeat split; constructor.
  - destruct (plot_entry can_hold md) as [e|[lat|]] eqn:E; simpl; [discriminate| |].
    + intros H. destruct (IH _ _ H) as (ls & ds & -> & -> & Hlen & Hsub & Hne).
      exists (k :: ls), (lat :: ds). rewrite <- !app_assoc. simpl.
      repeat split; [congruence | apply sublist_skip; exact Hsub |].
      constructor; [exact (plot_entry_nonempty _ _ _ E) | exact Hne].
    + intros H. destruct (IH _ _ H) as (ls & ds & -> & -> & Hlen & Hsub & Hne).
      exists ls, ds. repeat split; [exact Hlen | apply sublist_cons; exact Hsub | exact Hne].
Qed.

(** X11: when the plot renderer returns, the figure is saved at the path
    it was given; a box plot has as many labels as sample groups, at
    least one group and no empty group, its labels are names of the
    mapping in the order of the mapping, and nothing is printed on the
    standard error; otherwise the figure holds the message and the
    diagnostic is printed. *)
Theorem plot_output_well_formed (can_hold : Z -> bool) (all_metrics : all_metrics_t)
    (output_image_path : string)
    (out : plot_output) :
  generate_plot can_hold all_metrics output_image_path = inr out ->
  saved_path out = output_image_path
  /\ match saved_figure out with
     | Figure_boxplot labels data =>
         data <> [] /\ length labels = length data
         /\ sublist labels (map fst all_metrics)
         /\ Forall (fun g => g <> []) data
         /\ plot_stderr out = []
     | Figure_message text =>
         text = "No UPDATE latency data available for plotting."
         /\ plot_stderr out = [No_update_latency_data]
     end.
Proof.
  unfold generate_plot.
  destruct (plot_loop can_hold all_metrics [] []) as [e|[labels data]] eqn:Hloop; simpl;
    [discriminate|].
  destruct (plot_loop_inv _ _ _ _ _ _ Hloop) as (ls & ds & Hl & Hd & Hlen & Hsub & Hne).
  simpl in Hl, Hd. subst labels data.
  destruct ds as [|g ds]; intros [= <-]; simpl; [auto|].
  repeat split; [discriminate | exact Hlen | exact Hsub | exact Hne].
Qed.

Lemma plot_output_well_formed_witness :
  saved_path (PlotOutput plot_file (Figure_boxplot ["SQLite"] [[1; 1; 1; 1; 1; 2; 2; 2]]) [])
  = plot_file.
Proof.
  refine (proj1 (plot_output_well_formed (fun _ => true)
            [("PostgreSQL", None);
             ("SQLite", record_of_lines ["[UPDATE], Operations, 8"; "1,5"; "2,3"])]
            plot_file _ _)).
  reflexivity.
Defined.

Lemma lookup_record_truthy (m : gmap string (gmap string value)) (k : string)
    (d : gmap string value) :
  m !! k = Some d -> record_truthy (Some m) = true.
Proof.
  intros H. unfold record_truthy.
  destruct (Nat.eqb_spec (size m) 0) as [E|E]; [|reflexivity].
  apply map_size_empty_iff in E. subst m. rewrite lookup_empty in H. discriminate.
Qed.





(** ** The rows of the report *)

Lemma section_slot_lookup (m : gmap string (gmap string value)) (sec key : string)
    (v : value) :
  section_slot m sec key = Some v ->
  exists d, m !! sec = Some d /\ d !! key = Some v.
Proof.
  unfold section_slot. destruct (m !! sec) as [d|]; [eauto | discriminate].
Qed.

Lemma report_row_present (float_repr : spec_float -> string) (db_name : string)
    (m : gmap string (gmap string value)) (x y z : spec_float) :
  section_slot m "OVERALL" "Throughput(ops/sec)" = Some (VFloat x) ->
  section_slot m "UPDATE" "AverageLatency(us)" = Some (VFloat y) ->
  section_slot m "READ" "AverageLatency(us)" = Some (VFloat z) ->
  report_row float_repr db_name (Some m)
  = inr (table_row db_name (ljust 28 (float_repr x)) (ljust 23 (float_repr y))
           (ljust 21 (float_repr z))).
Proof.
  intros Ho Hu Hr.
  destruct (section_slot_lookup _ _ _ _ Ho) as (o & Hso & Hx).
  destruct (section_slot_lookup _ _ _ _ Hu) as (u & Hsu & Hy).
  destruct (section_slot_lookup _ _ _ _ Hr) as (r & Hsr & Hz).
  unfold report_row. rewrite (lookup_record_truthy m _ _ Hso).
  unfold getitem, format_cell, bind. rewrite Hso, Hsu, Hsr, Hx, Hy, Hz. reflexivity.
Qed.

Lemma report_row_none (float_repr : spec_float -> string) (db_name : string) :
  report_row float_repr db_name None
  = inr (table_row db_name (ljust 28 "N/A") (ljust 23 "N/A") (ljust 21 "N/A")).
Proof. reflexivity. Qed.

Lemma report_rows_present (float_repr : spec_float -> string) (items : all_metrics_t) :
  (forall name m, In (name, Some m) items -> exists x y z,
     section_slot m "OVERALL" "Throughput(ops/sec)" = Some (VFloat x)
     /\ section_slot m "UPDATE" "AverageLatency(us)" = Some (VFloat y)
     /\ section_slot m "READ" "AverageLatency(us)" = Some (VFloat z)) ->
  exists rows, report_rows float_repr items = (rows, None)
    /\ Forall2 (row_for float_repr) items rows.
Proof.
  induction items as [|[name md] items IH]; intros H; simpl.
  - exists []. split; [reflexivity | constructor].
  - destruct IH as (rows & Hrows & Hall);
      [intros n' m' Hin; apply (H n' m'); right; exact Hin|].
    destruct md as [m|].
    + destruct (H name m (or_introl eq_refl)) as (x & y & z & Ho & Hu & Hr).
      rewrite (report_row_present float_repr name m x y z Ho Hu Hr), Hrows.
      eexists. split; [reflexivity|]. constructor; [|exact Hall].
      unfold row_for. simpl. exists x, y, z. auto.
    + rewrite report_row_none, Hrows.
      eexists. split; [reflexivity|]. constructor; [|exact Hall]. reflexivity.
Qed.

(** X14: when every present record has a float as its throughput and as
    its UPDATE and READ average latencies, the Markdown renderer raises
    nothing and writes the header, one table line for each database in
    increasing order of the names, with the three formatted floats or the
    placeholder in the three cells for an absent record, then the plot
    section and the notes. *)
Theorem report_written (float_repr : spec_float -> string) (all_metrics : all_metrics_t)
    (plot_exists : bool) (plot_image_path : string) :
  (forall name m, In (name, Some m) all_metrics -> exists x y z,
     section_slot m "OVERALL" "Throughput(ops/sec)" = Some (VFloat x)
     /\ section_slot m "UPDATE" "AverageLatency(us)" = Some (VFloat y)
     /\ section_slot m "READ" "AverageLatency(us)" = Some (VFloat z)) ->
  exists rows,
    generate_markdown_report float_repr all_metrics plot_exists plot_image_path
    = (report_header +:+ concat_strings rows +:+ nl
       +:+ report_plot_section plot_exists plot_image_path +:+ report_notes, None)
    /\ Forall2 (row_for float_repr) (sorted_items all_metrics) rows
    /\ Sorted name_le (sorted_items all_metrics)
    /\ Permutation (sorted_items all_metrics) all_metrics.
Proof.
  intros H. destruct (sorted_items_spec all_metrics) as [Hsorted Hperm].
  destruct (report_rows_present float_repr (sorted_items all_metrics)) as (rows & Hrows & Hall).
  { intros name m Hin. apply (H name m).
    apply (Permutation_in _ Hperm). exact Hin. }
  exists rows. unfold generate_markdown_report. rewrite Hrows. auto.
Qed.

Lemma report_written_witness :
  exists rows,
    generate_markdown_report (fun _ => "1.0")
      [("SQLite", record_of_lines ["[OVERALL], 1, 1"; "[UPDATE], AverageLatency(us), 1";
                                   "[READ], AverageLatency(us), 1"]);
       ("DuckDB", None)] true plot_file
    = (report_header +:+ concat_strings rows +:+ nl
       +:+ report_plot_section true plot_file +:+ report_notes, None)
    /\ length rows = 2%nat.
Proof.
  destruct (report_written (fun _ => "1.0")
      [("SQLite", record_of_lines ["[OVERALL], 1, 1"; "[UPDATE], AverageLatency(us), 1";
                                   "[READ], AverageLatency(us), 1"]);
       ("DuckDB", None)] true plot_file) as (rows & Hrep & Hall & _).
  - intros name m [Hin|[Hin|[]]]; [|discriminate].
    injection Hin as _ <-.
    exists (S754_finite false 4503599627370496 (-52)),
           (S754_finite false 4503599627370496 (-52)),
           (S754_finite false 4503599627370496 (-52)).
    repeat split; reflexivity.
  - exists rows. split; [exact Hrep|].
    apply Forall2_length in Hall. rewrite <- Hall. reflexivity.
Defined.







(** ** A run without data *)

(** X16: when the parser returns no record for any of the five files,
    the run ends without an exception: the mapping holds [None] for every
    database, the figure with the message is saved as the plot, and the
    report is written in full, with a placeholder line for each database
    in increasing order of the names and the reference to the plot. *)
Theorem run_without_data (float_repr : spec_float -> string) (can_hold : Z -> bool)
    (fs : filesystem) :
  (forall db path, In (db, path) db_results_files ->
     fst (parse_ycsb_output fs path) = None) ->
  run_metrics (main float_repr can_hold fs) = map (fun f => (fst f, None)) db_results_files
  /\ run_exn (main float_repr can_hold fs) = None
  /\ run_plot (main float_repr can_hold fs)
     = Some (PlotOutput plot_file
               (Figure_message "No UPDATE latency data available for plotting.")
               [No_update_latency_data])
  /\ run_report (main float_repr can_hold fs)
     = Some (report_header
             +:+ concat_strings
                   (map (fun n => table_row n (ljust 28 "N/A") (ljust 23 "N/A") (ljust 21 "N/A"))
                      ["CockroachDB"; "DuckDB"; "FoundationDB"; "PostgreSQL"; "SQLite"])
             +:+ nl +:+ report_plot_section true plot_file +:+ report_notes).
Proof.
  intros H. unfold main, db_results_files in *. cbn [aggregate].
  repeat match goal with
  | |- context [parse_ycsb_output fs ?p] =>
      let m := fresh "m" in let d := fresh "d" in
      let E := fresh "E" in
      destruct (parse_ycsb_output fs p) as [m d] eqn:E;
      assert (m = None)
        by (change m with (fst (m, d)); rewrite <- E;
            eapply H; simpl; eauto 10);
      subst m
  end.
  repeat split; reflexivity.
Qed.

Lemma run_without_data_witness :
  run_exn (main (fun _ => EmptyString) (fun _ => true) (fun _ => inl FileNotFoundError)) = None.
Proof.
  refine (proj1 (proj2 (run_without_data (fun _ => EmptyString) (fun _ => true)
                          (fun _ => inl FileNotFoundError) _))).
  intros db path _. reflexivity.
Defined.

(** ** The distributions only grow *)

Lemma setitem2_slot_list (m m' : gmap string (gmap string value)) (s k : string)
    (x : spec_float) (sec key : string) (l' : list (Z * Z)) :
  setitem2 m s k (VFloat x) = inr m' ->
  section_slot m' sec key = Some (VList l') ->
  section_slot m sec key = Some (VList l').
Proof.
  unfold setitem2, getitem, bind.
  destruct (m !! s) as [d|] eqn:Hd; [|discriminate].
  intros [= <-]. unfold section_slot.
  destruct (decide (s = sec)) as [->|Hne].
  - rewrite lookup_insert_eq, Hd.
    destruct (decide (k = key)) as [->|Hk].
    + rewrite lookup_insert_eq. discriminate.
    + rewrite lookup_insert_ne by exact Hk. auto.
  - rewrite lookup_insert_ne by exact Hne. auto.
Qed.

Lemma append_slot_list (m m' : gmap string (gmap string value)) (s : string) (p : Z * Z)
    (sec : string) (l' : list (Z * Z)) :
  append_distribution m s p = inr m' ->
  section_slot m' sec "LatencyDistribution" = Some (VList l') ->
  exists l, section_slot m sec "LatencyDistribution" = Some (VList l) /\ l `prefix_of` l'.
Proof.
  unfold append_distribution, getitem, bind.
  destruct (m !! s) as [d|] eqn:Hd; [|discriminate].
  destruct (d !! "LatencyDistribution") as [[| |l0]|] eqn:Hl0; try discriminate.
  intros [= <-]. unfold section_slot.
  destruct (decide (s = sec)) as [->|Hne].
  - rewrite lookup_insert_eq, Hd, lookup_insert_eq, Hl0. intros [= <-].
    exists l0. split; [reflexivity | apply prefix_app_r; reflexivity].
  - rewrite lookup_insert_ne by exact Hne. intros H. exists l'. split; [exact H | reflexivity].
Qed.

Lemma process_line_slot_list (st st' : pstate) (raw sec : string) (l' : list (Z * Z)) :
  process_line st raw = inr st' ->
  section_slot (st_metrics st') sec "LatencyDistribution" = Some (VList l') ->
  exists l, section_slot (st_metrics st) sec "LatencyDistribution" = Some (VList l)
            /\ l `prefix_of` l'.
Proof.
  unfold process_line, bind.
  repeat case_match; try discriminate; intros [= <-]; simpl; intros Hs;
    repeat match goal with
    | H : setitem2 _ _ _ (VFloat _) = inr ?m1,
      H1 : section_slot ?m1 _ _ = Some (VList _) |- _ =>
        apply (setitem2_slot_list _ _ _ _ _ _ _ _ H) in H1; clear H
    end;
    try (eexists; split; [eassumption | reflexivity]).
  eapply append_slot_list; eassumption.
Qed.

(** X17: a distribution only grows: when the UPDATE or READ distribution
    is a list after some lines of a file, it was a list after any number
    of the first of these lines, and the rows gathered by then are the
    first rows of the list, in the same order. *)
Theorem distribution_append_only (pre post : list string) (st st' : pstate)
    (sec : string) (l' : list (Z * Z)) :
  process_lines initial_state pre = inr st ->
  process_lines st post = inr st' ->
  section_slot (st_metrics st') sec "LatencyDistribution" = Some (VList l') ->
  exists l, section_slot (st_metrics st) sec "LatencyDistribution" = Some (VList l)
            /\ l `prefix_of` l'.
Proof.
  intros _. revert st. induction post as [|raw post IH]; intros st; simpl.
  - intros [= <-] H. exists l'. split; [exact H | reflexivity].
  - destruct (process_line st raw) as [e|st1] eqn:E; simpl; [discriminate|].
    intros Hpost Hs. destruct (IH st1 Hpost Hs) as (l1 & Hl1 & Hp1).
    destruct (process_line_slot_list st st1 raw sec l1 E Hl1) as (l & Hl & Hp).
    exists l. split; [exact Hl | etrans; eassumption].
Qed.

Lemma distribution_append_only_witness :
  exists l, section_slot (st_metrics state_one_row) "UPDATE" "LatencyDistribution"
            = Some (VList l)
            /\ l `prefix_of` [(1, 5); (2, 3)].
Proof.
  refine (distribution_append_only ["[UPDATE]"; "1,5"] ["[READ], Operations, 4"; "[UPDATE]"; "2,3"]
            state_one_row
            (PState (<["UPDATE" := <["LatencyDistribution" := VList [(1, 5); (2, 3)]]>
                        (<["LatencyDistribution" := VList [(1, 5)]]> op_section)]>
                       (<["READ" := <["Operations" :=
                                        VFloat (S754_finite false 4503599627370496 (-50))]>
                                      op_section]>
                          (st_metrics state_one_row)))
               (Some "UPDATE"))
            "UPDATE" [(1, 5); (2, 3)] _ _ _).
  - reflexivity.
  - reflexivity.
  - reflexivity.
Defined.
